(** * Session-authenticated user management: the HTTP delivery layer

    A shallow embedding of [internal/auth/delivery/http/handlers.go] and
    [internal/middleware/sanitize.go].  The handlers are written against the
    interfaces they receive ([auth.UseCase], [session.UCSession]) and against
    the helper packages ([pkg/utils], [pkg/httpErrors], [pkg/csrf],
    [pkg/sanitize]); interfaces become type classes, the echo context becomes
    a record that is threaded through every handler.

    Left out: the tracing spans and the request deadline carried by the Go
    context, the error [c.JSON] returns when encoding fails (a handler's own
    return value is then always nil). *)

From Stdlib Require Import ZArith String Ascii List Lia QArith Qround.
From stdpp Require Import base option gmap strings list pretty.

Local Open Scope string_scope.
Local Open Scope list_scope.
Local Open Scope Z_scope.

(** ** Errors and results *)

(** The two failure kinds of [strconv]. *)
Inductive NumErrKind := ErrSyntax | ErrRange.

(** [httpErrors.RestError]; its JSON body is [{error, status}]. *)
Record RestError := mkRestError { ErrStatus : Z; ErrError : string }.

(** Go's [error] values that the delivery layer can meet. *)
Inductive error :=
| ErrNoCookie                                        (* http.ErrNoCookie *)
| NumError (Func Num : string) (Err : NumErrKind)    (* *strconv.NumError *)
| RestErr (r : RestError)                            (* httpErrors.RestErr *)
| ErrOther (msg : string).                           (* any other error *)

(** A Go pair [(value, err)]. *)
Inductive result (A : Type) :=
| Ok (a : A)
| Err (e : error).
Arguments Ok {A} a.
Arguments Err {A} e.

Definition StatusOK : Z := 200.
Definition StatusCreated : Z := 201.
Definition StatusBadRequest : Z := 400.
Definition StatusUnauthorized : Z := 401.
Definition StatusInternalServerError : Z := 500.

(** Modelled from the spec: the constructors of [pkg/httpErrors] are not under
    src/.  Section 7 fixes the status of each kind and section 6 the body
    [{error, status}]; the cause handed to a constructor is not part of the
    body. *)
Definition NewBadRequestError : RestError :=
  {| ErrStatus := StatusBadRequest; ErrError := "Bad request" |}.
Definition NewUnauthorizedError : RestError :=
  {| ErrStatus := StatusUnauthorized; ErrError := "Unauthorized" |}.
Definition NewInternalServerError : RestError :=
  {| ErrStatus := StatusInternalServerError;
     ErrError := "Internal Server Error" |}.

(** ** [strconv.Atoi] on a 64-bit platform *)

Definition maxUint64 : Z := 2 ^ 64 - 1.
Definition maxInt64 : Z := 2 ^ 63 - 1.
Definition minInt64 : Z := - 2 ^ 63.

Definition byte_of (ch : ascii) : Z := Z.of_N (N_of_ascii ch).

Definition is_digit (ch : ascii) : bool :=
  (48 <=? byte_of ch) && (byte_of ch <=? 57).

(** The digit loop of [ParseUint] in base 10: a byte that is no digit is a
    syntax error, an accumulator that leaves [uint64] a range error. *)
Fixpoint scan_digits (s : string) (n : Z) : NumErrKind + Z :=
  match s with
  | EmptyString => inr n
  | String ch rest =>
      if is_digit ch then
        let n1 := n * 10 + (byte_of ch - 48) in
        if maxUint64 <? n1 then inl ErrRange else scan_digits rest n1
      else inl ErrSyntax
  end.

Definition Atoi (s : string) : result Z :=
  match s with
  | EmptyString => Err (NumError "Atoi" s ErrSyntax)
  | String ch rest =>
      let neg := Ascii.eqb ch "-"%char in
      let digits := if neg || Ascii.eqb ch "+"%char then rest else s in
      match digits with
      | EmptyString => Err (NumError "Atoi" s ErrSyntax)
      | _ =>
          match scan_digits digits 0 with
          | inl k => Err (NumError "Atoi" s k)
          | inr un =>
              if neg then
                if - un <? minInt64 then Err (NumError "Atoi" s ErrRange)
                else Ok (- un)
              else
                if maxInt64 <? un then Err (NumError "Atoi" s ErrRange)
                else Ok un
          end
      end
  end.

(** ** Models ([internal/models], [internal/dto], [config]) *)

(** [models.User], with the properties the API description lists.  The
    handlers assign the result of [strconv.Atoi] to [ID], so it is an int. *)
Record User := mkUser {
  ID : Z;
  FirstName : string;
  LastName : string;
  Email : string;
  Password : string;
  Role : string;
  About : string;
  Avatar : string;
  PhoneNumber : string;
  Address : string;
  City : string;
  Country : string;
  Gender : string;
  Postcode : Z;
  Birthday : string;
  CreatedAt : string;
  UpdatedAt : string;
  LoginDate : string
}.

(** [&models.User{}] *)
Definition zeroUser : User :=
  mkUser 0 "" "" "" "" "" "" "" "" "" "" "" "" 0 "" "" "" "".

Definition set_ID (u : User) (id : Z) : User :=
  mkUser id (FirstName u) (LastName u) (Email u) (Password u) (Role u)
    (About u) (Avatar u) (PhoneNumber u) (Address u) (City u) (Country u)
    (Gender u) (Postcode u) (Birthday u) (CreatedAt u) (UpdatedAt u)
    (LoginDate u).

Record RegisterUserRequest := mkRegisterUserRequest {
  reg_FirstName : string;
  reg_LastName : string;
  reg_Email : string;
  reg_Password : string
}.

Record LoginUserRequest := mkLoginUserRequest {
  login_Email : string;
  login_Password : string
}.

(** What [authUC.Register] and [authUC.Login] return: the handlers read
    [.User.ID] from it. *)
Record UserWithToken := mkUserWithToken {
  uwt_User : User;
  uwt_Token : string
}.

Record UserWithRole := mkUserWithRole {
  uwr_User : User;
  uwr_Role : string
}.

Record Session := mkSession {
  SessionID : string;
  UserID : Z
}.

(** [models.UsersList], the pagination envelope. *)
Record UsersList := mkUsersList {
  TotalCount : Z;
  TotalPages : Z;
  Page : Z;
  Size : Z;
  HasMore : bool;
  Users : list User
}.

Record PaginationQuery := mkPaginationQuery {
  pq_Size : Z;
  pq_Page : Z;
  pq_OrderBy : string
}.

(** The part of [config.Config] the handlers read: [cfg.Session]. *)
Record Config := mkConfig {
  Session_Name : string;
  Session_Expire : Z
}.

(** ** The echo context

    Only what the handlers touch is kept: the request's body reader, cookies,
    path and query parameters, the per-request store behind [c.Get]/[c.Set],
    and on the response side the header map, the cookies handed to
    [c.SetCookie] and the writes made through [c.JSON] and [c.NoContent]. *)

(** [[]byte] *)
Definition bytes := string.

(** The dynamically typed values ([interface{}]) kept in the context store;
    a pointer may be nil. *)
Inductive Any :=
| AnyNil
| AnyString (s : string)
| AnyBytes (b : bytes)
| AnyInt (n : Z)
| AnyUser (p : option User)
| AnyUserWithRole (p : option UserWithRole).

(** The objects the handlers pass to [c.JSON]. *)
Inductive Payload :=
| JUserWithToken (u : UserWithToken)
| JUser (u : User)
| JUserWithRole (p : option UserWithRole)
| JUsersList (l : UsersList)
| JRestError (r : RestError).

Record Cookie := mkCookie {
  ck_Name : string;
  ck_Value : string;
  ck_Path : string;
  ck_MaxAge : Z;
  ck_Secure : bool;
  ck_HTTPOnly : bool
}.

(** [Request().Body]: reading it to the end yields its data or fails. *)
Inductive BodyReader :=
| BodyData (data : bytes)
| BodyFail (e : error).

Record Request := mkRequest {
  Body : BodyReader;
  BodyClosed : bool;
  Cookies : list (string * string);
  Params : list (string * string);
  Query : list (string * string)
}.

(** [http.Header]: the values of each header, under its canonical name.
    [Writes] has one entry per call of [c.JSON] ([Some] payload) or
    [c.NoContent]. *)
Record Response := mkResponse {
  Header : gmap string (list string);
  SetCookies : list Cookie;
  Writes : list (Z * option Payload)
}.

Record Context := mkContext {
  request : Request;
  response : Response;
  store : gmap string Any
}.

(** First value bound to a name, as [http.Request.Cookie], [url.Values.Get]
    and echo's [Param] return it. *)
Fixpoint assoc (name : string) (l : list (string * string)) : option string :=
  match l with
  | [] => None
  | (k, v) :: rest => if String.eqb k name then Some v else assoc name rest
  end.

Definition Cookie_ (name : string) (c : Context) : result string :=
  match assoc name (Cookies (request c)) with
  | Some v => Ok v
  | None => Err ErrNoCookie
  end.

Definition Param (name : string) (c : Context) : string :=
  default "" (assoc name (Params (request c))).

Definition QueryParam (name : string) (c : Context) : string :=
  default "" (assoc name (Query (request c))).

(** [c.Get]: a missing key is the nil interface. *)
Definition Get (key : string) (c : Context) : Any :=
  default AnyNil (store c !! key).

Definition Set_ (key : string) (v : Any) (c : Context) : Context :=
  mkContext (request c) (response c) (<[key := v]> (store c)).

Definition with_response (f : Response -> Response) (c : Context) : Context :=
  mkContext (request c) (f (response c)) (store c).

Definition with_request (f : Request -> Request) (c : Context) : Context :=
  mkContext (f (request c)) (response c) (store c).

Definition write (code : Z) (p : option Payload) (r : Response) : Response :=
  mkResponse (Header r) (SetCookies r) (Writes r ++ [(code, p)]).

Definition add_cookie (ck : Cookie) (r : Response) : Response :=
  mkResponse (Header r) (SetCookies r ++ [ck]) (Writes r).

(** [textproto.CanonicalMIMEHeaderKey]: a name made of header field bytes
    only gets an upper-case letter at its start and after each hyphen and
    lower-case letters elsewhere; any other name is left as it is. *)
Definition is_lower_letter (ch : ascii) : bool :=
  (97 <=? byte_of ch) && (byte_of ch <=? 122).

Definition is_upper_letter (ch : ascii) : bool :=
  (65 <=? byte_of ch) && (byte_of ch <=? 90).

Definition validHeaderFieldByte (ch : ascii) : bool :=
  is_digit ch || is_lower_letter ch || is_upper_letter ch
  || existsb (Ascii.eqb ch) (list_ascii_of_string "!#$%&'*+-.^_`|~").

Fixpoint all_valid (s : string) : bool :=
  match s with
  | EmptyString => true
  | String ch rest => validHeaderFieldByte ch && all_valid rest
  end.

Fixpoint canonical_bytes (upper : bool) (s : string) : string :=
  match s with
  | EmptyString => EmptyString
  | String ch rest =>
      let c :=
        if upper && is_lower_letter ch
        then ascii_of_N (N_of_ascii ch - 32)
        else if negb upper && is_upper_letter ch
        then ascii_of_N (N_of_ascii ch + 32)
        else ch in
      String c (canonical_bytes (Ascii.eqb c "-"%char) rest)
  end.

Definition CanonicalMIMEHeaderKey (s : string) : string :=
  if all_valid s then canonical_bytes true s else s.

(** [Header().Set(k, v)]: the values under the canonical name of [k] are
    replaced by the one value [v]. *)
Definition set_header (k v : string) (r : Response) : Response :=
  mkResponse (<[CanonicalMIMEHeaderKey k := [v]]> (Header r)) (SetCookies r)
    (Writes r).


(** [io.ReadAll(ctx.Request().Body)]: the reader is left at its end. *)
Definition ReadAll (c : Context) : result bytes * Context :=
  match Body (request c) with
  | BodyData data =>
      (Ok data,
       with_request (fun r => mkRequest (BodyData "") (BodyClosed r)
                                (Cookies r) (Params r) (Query r)) c)
  | BodyFail e => (Err e, c)
  end.

Definition Close (c : Context) : Context :=
  with_request (fun r => mkRequest (Body r) true (Cookies r) (Params r)
                           (Query r)) c.

(** ** The state a handler runs in

    The echo context, the world behind the use cases (database, cache) and
    what was handed to the logger. *)
Record St (W : Type) := mkSt {
  ctx : Context;
  world : W;
  logged : list error
}.
Arguments mkSt {W} ctx world logged.
Arguments ctx {W} s.
Arguments world {W} s.
Arguments logged {W} s.

Section Echo.
Context {W : Type}.

Definition on_ctx (f : Context -> Context) (s : St W) : St W :=
  mkSt (f (ctx s)) (world s) (logged s).

(** Run an operation of a collaborator on the world. *)
Definition call {A : Type} (op : W -> A * W) (s : St W) : A * St W :=
  let '(a, w') := op (world s) in (a, mkSt (ctx s) w' (logged s)).

Definition JSON (code : Z) (p : Payload) (s : St W) : St W :=
  on_ctx (with_response (write code (Some p))) s.

Definition NoContent (code : Z) (s : St W) : St W :=
  on_ctx (with_response (write code None)) s.

Definition SetCookie (ck : Cookie) (s : St W) : St W :=
  on_ctx (with_response (add_cookie ck)) s.

Definition HeaderSet (k v : string) (s : St W) : St W :=
  on_ctx (with_response (set_header k v)) s.

(** [utils.LogResponseError]: the error goes to the logger only. *)
Definition LogResponseError (err : error) (s : St W) : St W :=
  mkSt (ctx s) (world s) (logged s ++ [err]).
End Echo.

(** ** Collaborators *)

(** [auth.UseCase], as [h.authUC] is used. *)
Class UseCase (W : Type) := {
  authUC_Register : RegisterUserRequest -> W -> result UserWithToken * W;
  authUC_Login : LoginUserRequest -> W -> result UserWithToken * W;
  authUC_Update : User -> W -> result User * W;
  authUC_Delete : Z -> W -> option error * W;
  authUC_GetByID : Z -> W -> result User * W;
  authUC_FindByName : string -> PaginationQuery -> W -> result UsersList * W;
  authUC_GetUsers : PaginationQuery -> W -> result UsersList * W
}.

(** [session.UCSession], as [h.sessUC] is used. *)
Class UCSession (W : Type) := {
  sessUC_CreateSession : Session -> Z -> W -> result string * W;
  sessUC_DeleteByID : string -> W -> option error * W
}.

(** What the handlers take from [pkg/utils], [pkg/httpErrors], [pkg/csrf]
    and [pkg/sanitize], none of which is under src/. *)
Class Pkg := {
  (* utils.ReadRequest, at each type it is used at *)
  ReadRequest_Register : Context -> result RegisterUserRequest;
  ReadRequest_Login : Context -> result LoginUserRequest;
  ReadRequest_User : Context -> User -> result User;
  GetPaginationFromCtx : Context -> result PaginationQuery;
  CreateSessionCookie : Config -> string -> Cookie;
  (* how httpErrors answers an error that is no RestErr *)
  parse_error : error -> RestError;
  SanitizeJSON : bytes -> result bytes;
  CSRFHeader : string;
  (* the process-wide secret and the keyed hash of the CSRF service *)
  csrf_secret : string;
  keyed_hash : string -> string -> string
}.

Section Handlers.
Context {W : Type} {UC : UseCase W} {SUC : UCSession W} {P : Pkg}.

(** Modelled from the spec: [httpErrors.ErrorResponse] is not under src/.
    Section 7: every error is answered with the status of its kind and the
    body [{error, status}]; an error that already is a REST error keeps its
    kind. *)
Definition ParseErrors (err : error) : RestError :=
  match err with
  | RestErr r => r
  | _ => parse_error err
  end.

Definition ErrorResponse (err : error) : Z * Payload :=
  (ErrStatus (ParseErrors err), JRestError (ParseErrors err)).

(** [c.JSON(httpErrors.ErrorResponse(err))] *)
Definition JSON_ErrorResponse (err : error) (s : St W) : St W :=
  let '(code, body) := ErrorResponse err in JSON code body s.

(** Modelled from the spec: [utils.ErrResponseWithLog] is not under src/.
    It logs the error and answers it as [ErrorResponse] maps it (section 6:
    [GET /auth/me] and [GET /auth/token] fail with 401). *)
Definition ErrResponseWithLog (err : error) (s : St W) : St W :=
  JSON_ErrorResponse err (LogResponseError err s).

(** Modelled from the spec: [utils.DeleteSessionCookie] is not under src/.
    Section 4.4: the delivery layer is told to clear the cookie; a cookie is
    cleared by setting it again, empty and already expired. *)
Definition DeleteSessionCookie (sessionName : string) (s : St W) : St W :=
  SetCookie (mkCookie sessionName "" "/" (-1) false false) s.

(** Modelled from the spec: [csrf.MakeToken] is not under src/.
    Section 4.2: a keyed hash of the session id under a process-wide secret
    key, with no I/O and no per-request failure. *)
Definition MakeToken (sid : string) : string :=
  keyed_hash csrf_secret sid.

Variable cfg : Config.

Definition Register (s : St W) : St W :=
  match ReadRequest_Register (ctx s) with
  | Err err => JSON_ErrorResponse err (LogResponseError err s)
  | Ok user =>
      let '(r, s) := call (authUC_Register user) s in
      match r with
      | Err err => JSON_ErrorResponse err (LogResponseError err s)
      | Ok createdUser =>
          let '(r, s) :=
            call (sessUC_CreateSession
                    (mkSession "" (ID (uwt_User createdUser)))
                    (Session_Expire cfg)) s in
          match r with
          | Err err => JSON_ErrorResponse err (LogResponseError err s)
          | Ok sess =>
              let s := SetCookie (CreateSessionCookie cfg sess) s in
              JSON StatusCreated (JUserWithToken createdUser) s
          end
      end
  end.

Definition Login (s : St W) : St W :=
  match ReadRequest_Login (ctx s) with
  | Err err => JSON_ErrorResponse err (LogResponseError err s)
  | Ok login =>
      let '(r, s) := call (authUC_Login login) s in
      match r with
      | Err err => JSON_ErrorResponse err (LogResponseError err s)
      | Ok userWithToken =>
          let '(r, s) :=
            call (sessUC_CreateSession
                    (mkSession "" (ID (uwt_User userWithToken)))
                    (Session_Expire cfg)) s in
          match r with
          | Err err => JSON_ErrorResponse err (LogResponseError err s)
          | Ok sess =>
              let s := SetCookie (CreateSessionCookie cfg sess) s in
              JSON StatusOK (JUserWithToken userWithToken) s
          end
      end
  end.

Definition Logout (s : St W) : St W :=
  match Cookie_ "session-id" (ctx s) with
  | Err err =>
      match err with
      | ErrNoCookie =>
          JSON StatusUnauthorized (JRestError NewUnauthorizedError)
            (LogResponseError err s)
      | _ =>
          JSON StatusInternalServerError (JRestError NewInternalServerError)
            (LogResponseError err s)
      end
  | Ok value =>
      let '(r, s) := call (sessUC_DeleteByID value) s in
      match r with
      | Some err => JSON_ErrorResponse err (LogResponseError err s)
      | None =>
          let s := DeleteSessionCookie (Session_Name cfg) s in
          NoContent StatusOK s
      end
  end.

Definition Update (s : St W) : St W :=
  match Atoi (Param "user_id" (ctx s)) with
  | Err err => JSON_ErrorResponse err (LogResponseError err s)
  | Ok uID =>
      let user := set_ID zeroUser uID in
      match ReadRequest_User (ctx s) user with
      | Err err => JSON_ErrorResponse err (LogResponseError err s)
      | Ok user =>
          let '(r, s) := call (authUC_Update user) s in
          match r with
          | Err err => JSON_ErrorResponse err (LogResponseError err s)
          | Ok updatedUser => JSON StatusOK (JUser updatedUser) s
          end
      end
  end.

Definition GetUserByID (s : St W) : St W :=
  match Atoi (Param "user_id" (ctx s)) with
  | Err err => JSON_ErrorResponse err (LogResponseError err s)
  | Ok uID =>
      let '(r, s) := call (authUC_GetByID uID) s in
      match r with
      | Err err => JSON_ErrorResponse err (LogResponseError err s)
      | Ok user => JSON StatusOK (JUser user) s
      end
  end.

Definition Delete (s : St W) : St W :=
  match Atoi (Param "user_id" (ctx s)) with
  | Err err => JSON_ErrorResponse err (LogResponseError err s)
  | Ok uID =>
      let '(r, s) := call (authUC_Delete uID) s in
      match r with
      | Some err => JSON_ErrorResponse err (LogResponseError err s)
      | None => NoContent StatusOK s
      end
  end.

Definition FindByName (s : St W) : St W :=
  if String.eqb (QueryParam "name" (ctx s)) "" then
    JSON StatusBadRequest (JRestError NewBadRequestError)
      (LogResponseError (RestErr NewBadRequestError) s)
  else
    match GetPaginationFromCtx (ctx s) with
    | Err err => JSON_ErrorResponse err (LogResponseError err s)
    | Ok paginationQuery =>
        let '(r, s) :=
          call (authUC_FindByName (QueryParam "name" (ctx s))
                  paginationQuery) s in
        match r with
        | Err err => JSON_ErrorResponse err (LogResponseError err s)
        | Ok response => JSON StatusOK (JUsersList response) s
        end
    end.

Definition GetUsers (s : St W) : St W :=
  match GetPaginationFromCtx (ctx s) with
  | Err err => JSON_ErrorResponse err (LogResponseError err s)
  | Ok paginationQuery =>
      let '(r, s) := call (authUC_GetUsers paginationQuery) s in
      match r with
      | Err err => JSON_ErrorResponse err (LogResponseError err s)
      | Ok usersList => JSON StatusOK (JUsersList usersList) s
      end
  end.

(** [c.Get("user").( *models.UserWithRole)]: the assertion holds exactly
    when the stored value has that dynamic type. *)
Definition GetMe (s : St W) : St W :=
  match Get "user" (ctx s) with
  | AnyUserWithRole user => JSON StatusOK (JUserWithRole user) s
  | _ =>
      ErrResponseWithLog (RestErr NewUnauthorizedError)
        (LogResponseError (RestErr NewUnauthorizedError) s)
  end.

Definition GetCSRFToken (s : St W) : St W :=
  match Get "sid" (ctx s) with
  | AnyString sid =>
      let token := MakeToken sid in
      let s := HeaderSet CSRFHeader token s in
      let s := HeaderSet "Access-Control-Expose-Headers" CSRFHeader s in
      NoContent StatusOK s
  | _ =>
      ErrResponseWithLog (RestErr NewUnauthorizedError)
        (LogResponseError (RestErr NewUnauthorizedError) s)
  end.

(** [MiddlewareManager.Sanitize]; the deferred [Body.Close] runs when the
    function returns, after [next]. *)
Definition Sanitize (next : St W -> St W) (s : St W) : St W :=
  let '(r, c) := ReadAll (ctx s) in
  let s := mkSt c (world s) (logged s) in
  match r with
  | Err _ => NoContent StatusBadRequest s
  | Ok body =>
      match SanitizeJSON body with
      | Err _ => on_ctx Close (NoContent StatusBadRequest s)
      | Ok sanBody =>
          on_ctx Close (next (on_ctx (Set_ "body" (AnyBytes sanBody)) s))
      end
  end.
End Handlers.

(** ** A recording world

    Wrapping the world of any implementation of the two interfaces so that
    every call made through them is noted, in order, with its arguments:
    what the handlers did to their collaborators can then be read off. *)

Inductive Call :=
| CallRegister (user : RegisterUserRequest)
| CallLogin (login : LoginUserRequest)
| CallUpdate (user : User)
| CallDelete (uID : Z)
| CallGetByID (uID : Z)
| CallFindByName (name : string) (pq : PaginationQuery)
| CallGetUsers (pq : PaginationQuery)
| CallCreateSession (sess : Session) (expire : Z)
| CallDeleteByID (sessionID : string).

Record Recorded (W : Type) := mkRecorded {
  inner : W;
  calls : list Call
}.
Arguments mkRecorded {W} inner calls.
Arguments inner {W} r.
Arguments calls {W} r.

Definition record {W A : Type} (k : Call) (op : W -> A * W)
    (r : Recorded W) : A * Recorded W :=
  let '(a, w') := op (inner r) in (a, mkRecorded w' (calls r ++ [k])).

#[export] Instance Recorded_UseCase (W : Type) `{UseCase W} :
    UseCase (Recorded W) := {|
  authUC_Register user := record (CallRegister user) (authUC_Register user);
  authUC_Login login := record (CallLogin login) (authUC_Login login);
  authUC_Update user := record (CallUpdate user) (authUC_Update user);
  authUC_Delete uID := record (CallDelete uID) (authUC_Delete uID);
  authUC_GetByID uID := record (CallGetByID uID) (authUC_GetByID uID);
  authUC_FindByName name pq :=
    record (CallFindByName name pq) (authUC_FindByName name pq);
  authUC_GetUsers pq := record (CallGetUsers pq) (authUC_GetUsers pq)
|}.

#[export] Instance Recorded_UCSession (W : Type) `{UCSession W} :
    UCSession (Recorded W) := {|
  sessUC_CreateSession sess expire :=
    record (CallCreateSession sess expire) (sessUC_CreateSession sess expire);
  sessUC_DeleteByID sid := record (CallDeleteByID sid) (sessUC_DeleteByID sid)
|}.

(** ** Pagination *)

(** Modelled from the spec: the code that fills [models.UsersList] (the
    pagination helpers of [pkg/utils] and the repository) is not under src/.
    Section 3: [total_pages = ceil(total_count / size)] and
    [has_more = page < total_pages]; the first is computed in integers here
    and compared with the ceiling of the quotient below. *)
Definition GetTotalPages (totalCount size : Z) : Z :=
  (totalCount + size - 1) / size.

Definition GetHasMore (page totalCount size : Z) : bool :=
  page <? GetTotalPages totalCount size.

(** The spec's words: the ceiling of the rational [total_count / size]. *)
Definition ceil_div (totalCount size : Z) : Z :=
  Qceiling (inject_Z totalCount / inject_Z size)%Q.

(** Modelled from the spec: section 4.3, a page is a window of [size]
    records starting after the [page - 1] pages before it (pages count from
    1); [page] and [size] below 1 fail with a validation error. *)
Definition ValidationError : error :=
  RestErr (mkRestError StatusBadRequest "Bad request").

Definition paginate (pq : PaginationQuery) (found : list User) :
    result UsersList :=
  if (pq_Page pq <? 1) || (pq_Size pq <? 1) then Err ValidationError
  else
    let total := Z.of_nat (length found) in
    Ok {| TotalCount := total;
          TotalPages := GetTotalPages total (pq_Size pq);
          Page := pq_Page pq;
          Size := pq_Size pq;
          HasMore := GetHasMore (pq_Page pq) total (pq_Size pq);
          Users := take (Z.to_nat (pq_Size pq))
                     (drop (Z.to_nat ((pq_Page pq - 1) * pq_Size pq)) found) |}.

(** ** An in-memory User Directory and Session Store

    Modelled from the spec: the use cases and repositories behind
    [auth.UseCase] and [session.UCSession] are not under src/.  Sections 4.1
    and 4.3 are followed: users are kept in id order, a session id maps to at
    most one session, deleting a missing session is no error, deleting a user
    removes that user's sessions, and the cache backend may be unreachable,
    in which case the Session Store fails with a storage error. *)

Record Mem := mkMem {
  mem_users : list User;
  mem_next_id : Z;
  mem_sessions : gmap string Session;
  mem_next_sid : N;
  mem_cache_up : bool
}.

Definition StorageError : error :=
  RestErr (mkRestError StatusInternalServerError "Internal Server Error").
Definition NotFoundError : error := RestErr (mkRestError 404 "Not Found").
Definition ConflictError : error := RestErr (mkRestError 409 "Conflict").
Definition UnauthorizedError : error := RestErr NewUnauthorizedError.

Definition with_users (us : list User) (m : Mem) : Mem :=
  mkMem us (mem_next_id m) (mem_sessions m) (mem_next_sid m) (mem_cache_up m).

Definition with_sessions (ss : gmap string Session) (m : Mem) : Mem :=
  mkMem (mem_users m) (mem_next_id m) ss (mem_next_sid m) (mem_cache_up m).

Definition find_user (p : User -> bool) (m : Mem) : option User :=
  List.find p (mem_users m).

Definition lower (ch : ascii) : ascii :=
  if (65 <=? byte_of ch) && (byte_of ch <=? 90)
  then ascii_of_N (N_of_ascii ch + 32) else ch.

Fixpoint to_lower (s : string) : string :=
  match s with
  | EmptyString => EmptyString
  | String ch rest => String (lower ch) (to_lower rest)
  end.

(** The match policy chosen for [FindByName]: a case-insensitive prefix of
    the first or of the last name. *)
Definition matches_name (name : string) (u : User) : bool :=
  String.prefix (to_lower name) (to_lower (FirstName u))
  || String.prefix (to_lower name) (to_lower (LastName u)).

Fixpoint insert_by (le : User -> User -> bool) (u : User) (l : list User) :
    list User :=
  match l with
  | [] => [u]
  | v :: rest => if le u v then u :: l else v :: insert_by le u rest
  end.

Definition sort_by (le : User -> User -> bool) (l : list User) : list User :=
  foldr (insert_by le) [] l.

(** The sortable columns; any other [orderBy] is refused. *)
Definition order_of (orderBy : string) : option (User -> User -> bool) :=
  if String.eqb orderBy "" || String.eqb orderBy "user_id"
  then Some (fun a b => ID a <=? ID b)
  else if String.eqb orderBy "first_name"
  then Some (fun a b => String.leb (FirstName a) (FirstName b))
  else if String.eqb orderBy "last_name"
  then Some (fun a b => String.leb (LastName a) (LastName b))
  else None.

Section MemUseCase.
(** How a password is turned into what is stored. *)
Variable hashPassword : string -> string.

Definition valid_registration (r : RegisterUserRequest) : bool :=
  negb (String.eqb (reg_FirstName r) "")
  && (Z.of_nat (String.length (reg_FirstName r)) <=? 30)
  && negb (String.eqb (reg_LastName r) "")
  && (Z.of_nat (String.length (reg_LastName r)) <=? 30)
  && (6 <=? Z.of_nat (String.length (reg_Password r))).

Definition mem_Register (r : RegisterUserRequest) (m : Mem) :
    result UserWithToken * Mem :=
  if negb (valid_registration r) then (Err ValidationError, m)
  else
    match find_user (fun u => String.eqb (Email u) (reg_Email r)) m with
    | Some _ => (Err ConflictError, m)
    | None =>
        let u := mkUser (mem_next_id m) (reg_FirstName r) (reg_LastName r)
                   (reg_Email r) (hashPassword (reg_Password r)) "user"
                   "" "" "" "" "" "" "" 0 "" "" "" "" in
        (Ok (mkUserWithToken u ""),
         mkMem (mem_users m ++ [u]) (mem_next_id m + 1) (mem_sessions m)
           (mem_next_sid m) (mem_cache_up m))
    end.

Definition mem_Login (l : LoginUserRequest) (m : Mem) :
    result UserWithToken * Mem :=
  match find_user (fun u => String.eqb (Email u) (login_Email l)) m with
  | Some u =>
      if String.eqb (Password u) (hashPassword (login_Password l))
      then (Ok (mkUserWithToken u ""), m)
      else (Err UnauthorizedError, m)
  | None => (Err UnauthorizedError, m)
  end.

Definition mem_GetByID (uID : Z) (m : Mem) : result User * Mem :=
  match find_user (fun u => ID u =? uID) m with
  | Some u => (Ok u, m)
  | None => (Err NotFoundError, m)
  end.

(** A partial update: the names given replace the stored ones. *)
Definition merge_user (new old : User) : User :=
  mkUser (ID old)
    (if String.eqb (FirstName new) "" then FirstName old else FirstName new)
    (if String.eqb (LastName new) "" then LastName old else LastName new)
    (Email old) (Password old) (Role old) (About old) (Avatar old)
    (PhoneNumber old) (Address old) (City old) (Country old) (Gender old)
    (Postcode old) (Birthday old) (CreatedAt old) (UpdatedAt old)
    (LoginDate old).

Definition mem_Update (user : User) (m : Mem) : result User * Mem :=
  match find_user (fun u => ID u =? ID user) m with
  | Some old =>
      let u := merge_user user old in
      (Ok u,
       with_users
         (List.map (fun v => if ID v =? ID user then u else v) (mem_users m))
         m)
  | None => (Err NotFoundError, m)
  end.

Definition mem_Delete (uID : Z) (m : Mem) : option error * Mem :=
  match find_user (fun u => ID u =? uID) m with
  | Some _ =>
      (None,
       with_sessions
         (filter (fun kv => UserID kv.2 ≠ uID) (mem_sessions m))
         (with_users
            (List.filter (fun u => negb (ID u =? uID)) (mem_users m)) m))
  | None => (Some NotFoundError, m)
  end.

Definition mem_FindByName (name : string) (pq : PaginationQuery) (m : Mem) :
    result UsersList * Mem :=
  (paginate pq (List.filter (matches_name name) (mem_users m)), m).

Definition mem_GetUsers (pq : PaginationQuery) (m : Mem) :
    result UsersList * Mem :=
  match order_of (pq_OrderBy pq) with
  | Some le => (paginate pq (sort_by le (mem_users m)), m)
  | None => (Err ValidationError, m)
  end.

Definition mem_CreateSession (sess : Session) (expire : Z) (m : Mem) :
    result string * Mem :=
  if mem_cache_up m then
    let sid := "sid-" +:+ pretty (mem_next_sid m) in
    (Ok sid,
     mkMem (mem_users m) (mem_next_id m)
       (<[sid := mkSession sid (UserID sess)]> (mem_sessions m))
       (mem_next_sid m + 1) true)
  else (Err StorageError, m).

Definition mem_DeleteByID (sid : string) (m : Mem) : option error * Mem :=
  if mem_cache_up m then (None, with_sessions (delete sid (mem_sessions m)) m)
  else (Some StorageError, m).

Definition Mem_UseCase : UseCase Mem := {|
  authUC_Register := mem_Register;
  authUC_Login := mem_Login;
  authUC_Update := mem_Update;
  authUC_Delete := mem_Delete;
  authUC_GetByID := mem_GetByID;
  authUC_FindByName := mem_FindByName;
  authUC_GetUsers := mem_GetUsers
|}.

Definition Mem_UCSession : UCSession Mem := {|
  sessUC_CreateSession := mem_CreateSession;
  sessUC_DeleteByID := mem_DeleteByID
|}.
End MemUseCase.

(** ** Fixtures

    A small stand-in for the helper packages, used to run the handlers on
    concrete requests: a body is the fields of the request separated by
    semicolons, a body that can be sanitized starts with an opening brace,
    and the keyed hash is a toy without collisions. *)

Fixpoint split_on (sep : ascii) (s : string) : list string :=
  match s with
  | EmptyString => [EmptyString]
  | String ch rest =>
      if Ascii.eqb ch sep then EmptyString :: split_on sep rest
      else
        match split_on sep rest with
        | [] => [String ch EmptyString]
        | w :: ws => String ch w :: ws
        end
  end.

Definition fx_fields (c : Context) : result (list string) :=
  match Body (request c) with
  | BodyData data => Ok (split_on ";"%char data)
  | BodyFail e => Err e
  end.

Definition fx_ReadRequest_Register (c : Context) : result RegisterUserRequest :=
  match fx_fields c with
  | Ok [f; l; e; p] => Ok (mkRegisterUserRequest f l e p)
  | Ok _ => Err (ErrOther "Unmarshal")
  | Err e => Err e
  end.

Definition fx_ReadRequest_Login (c : Context) : result LoginUserRequest :=
  match fx_fields c with
  | Ok [e; p] => Ok (mkLoginUserRequest e p)
  | Ok _ => Err (ErrOther "Unmarshal")
  | Err e => Err e
  end.

Definition fx_ReadRequest_User (c : Context) (u : User) : result User :=
  match fx_fields c with
  | Ok [f; l] =>
      Ok (mkUser (ID u) f l (Email u) (Password u) (Role u) (About u)
            (Avatar u) (PhoneNumber u) (Address u) (City u) (Country u)
            (Gender u) (Postcode u) (Birthday u) (CreatedAt u) (UpdatedAt u)
            (LoginDate u))
  | Ok _ => Err (ErrOther "Unmarshal")
  | Err e => Err e
  end.

Definition fx_int_param (name : string) (dflt : Z) (c : Context) : result Z :=
  if String.eqb (QueryParam name c) "" then Ok dflt
  else Atoi (QueryParam name c).

Definition fx_GetPaginationFromCtx (c : Context) : result PaginationQuery :=
  match fx_int_param "size" 10 c, fx_int_param "page" 1 c with
  | Ok size, Ok page =>
      Ok (mkPaginationQuery size page (QueryParam "orderBy" c))
  | Err e, _ => Err e
  | _, Err e => Err e
  end.

Definition fx_CreateSessionCookie (cfg : Config) (sess : string) : Cookie :=
  mkCookie (Session_Name cfg) sess "/" (Session_Expire cfg) false true.

Definition fx_parse_error (err : error) : RestError :=
  match err with
  | ErrNoCookie => NewUnauthorizedError
  | NumError _ _ _ => NewBadRequestError
  | RestErr r => r
  | ErrOther _ => NewInternalServerError
  end.

Definition fx_SanitizeJSON (body : bytes) : result bytes :=
  match body with
  | String "{"%char _ => Ok body
  | _ => Err (ErrOther "invalid character")
  end.

Definition fx_Pkg : Pkg := {|
  ReadRequest_Register := fx_ReadRequest_Register;
  ReadRequest_Login := fx_ReadRequest_Login;
  ReadRequest_User := fx_ReadRequest_User;
  GetPaginationFromCtx := fx_GetPaginationFromCtx;
  CreateSessionCookie := fx_CreateSessionCookie;
  parse_error := fx_parse_error;
  SanitizeJSON := fx_SanitizeJSON;
  CSRFHeader := "X-CSRF-Token";
  csrf_secret := "secret";
  keyed_hash := fun k m => k +:+ ":" +:+ m
|}.

Definition fx_hashPassword (p : string) : string := "digest(" +:+ p +:+ ")".

Definition fx_cfg : Config := mkConfig "session-id" 3600.

Definition fx_request (body : bytes)
    (cookies params query : list (string * string)) : Context :=
  mkContext (mkRequest (BodyData body) false cookies params query)
    (mkResponse ∅ [] []) ∅.

Definition fx_empty (cache_up : bool) : Mem := mkMem [] 1 ∅ 0 cache_up.

Definition fx_user (n : Z) : User :=
  mkUser n ("first" +:+ pretty n) ("last" +:+ pretty n)
    ("u" +:+ pretty n +:+ "@example.org") "digest(secret)" "user"
    "" "" "" "" "" "" "" 0 "" "" "" "".

(** A directory of [n] users with ids 1 to [n]. *)
Definition fx_directory (n : nat) : Mem :=
  mkMem (List.map (fun i => fx_user (Z.of_nat i)) (seq 1 n))
    (Z.of_nat n + 1) ∅ 0 true.

Definition fx_start {W : Type} (c : Context) (w : W) : St (Recorded W) :=
  mkSt c (mkRecorded w []) [].

#[export] Instance fx_UseCase : UseCase Mem := Mem_UseCase fx_hashPassword.
#[export] Instance fx_UCSession : UCSession Mem := Mem_UCSession.

(** ** What a client and the collaborators observe *)

Definition writes {W : Type} (s : St W) : list (Z * option Payload) :=
  Writes (response (ctx s)).

Definition cookies_set {W : Type} (s : St W) : list Cookie :=
  SetCookies (response (ctx s)).


(** The write [c.JSON(httpErrors.ErrorResponse(err))] makes. *)
Definition error_write {P : Pkg} (err : error) : Z * option Payload :=
  (ErrStatus (ParseErrors err), Some (JRestError (ParseErrors err))).

(** A write whose body is a REST error. *)
Definition is_error_write (wr : Z * option Payload) : Prop :=
  exists r, wr.2 = Some (JRestError r).

Section Steps.
Context {W : Type} {UC : UseCase W} {SUC : UCSession W} {P : Pkg}.
Variable cfg : Config.

(** Every step of [Register] succeeds: request parse, user creation and
    session creation. *)
Definition Register_steps (s : St W) (createdUser : UserWithToken)
    (sess : string) : Prop :=
  exists user w1 w2,
    ReadRequest_Register (ctx s) = Ok user /\
    authUC_Register user (world s) = (Ok createdUser, w1) /\
    sessUC_CreateSession (mkSession "" (ID (uwt_User createdUser)))
      (Session_Expire cfg) w1 = (Ok sess, w2).

(** Every step of [Login] succeeds. *)
Definition Login_steps (s : St W) (userWithToken : UserWithToken)
    (sess : string) : Prop :=
  exists login w1 w2,
    ReadRequest_Login (ctx s) = Ok login /\
    authUC_Login login (world s) = (Ok userWithToken, w1) /\
    sessUC_CreateSession (mkSession "" (ID (uwt_User userWithToken)))
      (Session_Expire cfg) w1 = (Ok sess, w2).
End Steps.

(** A decimal integer as it is written: an optional sign, then one or more
    decimal digits. *)
Fixpoint all_digits (s : string) : bool :=
  match s with
  | EmptyString => true
  | String ch rest => is_digit ch && all_digits rest
  end.

Definition decimal_integer (s : string) : bool :=
  match s with
  | EmptyString => false
  | String ch rest =>
      if Ascii.eqb ch "-"%char || Ascii.eqb ch "+"%char
      then negb (String.eqb rest "") && all_digits rest
      else all_digits s
  end.

(** Requests used below to run the handlers. *)

(** [GET /auth/all?page=..&size=10] on a directory of 25 users. *)
Definition fx_list_page (page : string) : St Mem :=
  mkSt (fx_request "" [] [] [("page", page); ("size", "10")]) (fx_directory 25)
    [].

(** [POST /auth/register] while the cache backend is unreachable. *)
Definition fx_register_cache_down : St (Recorded Mem) :=
  fx_start (fx_request "Ada;Lovelace;ada@example.org;secret1" [] [] [])
    (fx_empty false).

(** [POST /auth/logout] with a session cookie while the cache backend is
    unreachable. *)
Definition fx_logout_cache_down : St (Recorded Mem) :=
  fx_start (fx_request "" [("session-id", "sid-0")] [] []) (fx_empty false).

(** [GET /auth/find] without a name, and [PUT /auth/abc]. *)
Definition fx_find_no_name : St (Recorded Mem) :=
  fx_start (fx_request "" [] [] []) (fx_directory 3).

Definition fx_malformed_id : St (Recorded Mem) :=
  fx_start (fx_request "Grace;Hopper" [] [("user_id", "abc")] [])
    (fx_directory 3).


(** A registration, and the directory once it went through. *)
Definition fx_ada_request : RegisterUserRequest :=
  mkRegisterUserRequest "Ada" "Lovelace" "ada@example.org" "secret1".

Definition fx_ada : User :=
  mkUser 1 "Ada" "Lovelace" "ada@example.org" "digest(secret1)" "user"
    "" "" "" "" "" "" "" 0 "" "" "" "".

Definition fx_ada_registered (cache_up : bool) : Mem :=
  mkMem [fx_ada] 2 ∅ 0 cache_up.

(** [POST /auth/register] while the cache backend is reachable. *)
Definition fx_register_ok : St Mem :=
  mkSt (fx_request "Ada;Lovelace;ada@example.org;secret1" [] [] [])
    (fx_empty true) [].

(** The second page of ten of the directory of 25 users. *)
Definition fx_second_page : UsersList :=
  mkUsersList 25 3 2 10 true (take 10 (drop 10 (mem_users (fx_directory 25)))).

(** ** The handlers as a family *)

Section Family.
Context {W : Type} {UC : UseCase W} {SUC : UCSession W} {P : Pkg}.
Variable cfg : Config.

(** The handlers that neither open nor close a session, in the order of the
    source. *)
Definition plain_handlers : list (St W -> St W) :=
  [Update; GetUserByID; Delete; FindByName; GetUsers; GetMe; GetCSRFToken].

(** All ten handlers of [authHandlers]. *)
Definition all_handlers : list (St W -> St W) :=
  [Register cfg; Login cfg; Logout cfg] ++ plain_handlers.
End Family.

(** The method a recorded call went to. *)
Definition call_name (k : Call) : string :=
  match k with
  | CallRegister _ => "Register"
  | CallLogin _ => "Login"
  | CallUpdate _ => "Update"
  | CallDelete _ => "Delete"
  | CallGetByID _ => "GetByID"
  | CallFindByName _ _ => "FindByName"
  | CallGetUsers _ => "GetUsers"
  | CallCreateSession _ _ => "CreateSession"
  | CallDeleteByID _ => "DeleteByID"
  end.

(** The number a decimal integer denotes. *)
Fixpoint digits_value (s : string) (n : Z) : Z :=
  match s with
  | EmptyString => n
  | String ch rest => digits_value rest (n * 10 + (byte_of ch - 48))
  end.

Definition decimal_value (s : string) : Z :=
  match s with
  | EmptyString => 0
  | String ch rest =>
      if Ascii.eqb ch "-"%char then - digits_value rest 0
      else if Ascii.eqb ch "+"%char then digits_value rest 0
      else digits_value s 0
  end.

Definition in_int64 (n : Z) : bool := (minInt64 <=? n) && (n <=? maxInt64).

(** ** The server ([internal/server/server.go])

    [Run] as its own goroutine goes through it: what it does, in order, and
    what it returns once a signal has arrived at the receive it blocks on.  A
    [go] statement is noted as the goroutine it starts: the assignments that
    goroutine makes to [s.echo.Server], then the task it runs.  How the
    goroutines interleave with [Run] is not modelled. *)

Definition certFile : string := "ssl/server.crt".
Definition keyFile : string := "ssl/server.pem".
Definition maxHeaderBytes : Z := Z.shiftl 1 20.
Definition ctxTimeout : Z := 5.

(** [time.Second], in nanoseconds, and the product of two [time.Duration]
    values, which are [int64]. *)
Definition Second : Z := 1000000000.

Definition wrap_int64 (z : Z) : Z := (z + 2 ^ 63) mod 2 ^ 64 - 2 ^ 63.

Definition mul_Duration (a b : Z) : Z := wrap_int64 (a * b).

(** [cfg.Server] *)
Record ServerConfig := mkServerConfig {
  SSL : bool;
  Port : string;
  PprofPort : string;
  ReadTimeout : Z;
  WriteTimeout : Z
}.

(** The fields of [http.Server] that [Run] sets. *)
Record http_Server := mk_http_Server {
  Addr : string;
  srv_ReadTimeout : Z;
  srv_WriteTimeout : Z;
  srv_MaxHeaderBytes : Z
}.

(** The two servers of an [echo.Echo]: [Server], which [Run] assigns to and
    shuts down, and [TLSServer], which [StartTLS] serves. *)
Record Echo := mkEcho {
  echo_Server : http_Server;
  echo_TLSServer : http_Server
}.

Inductive Signal := Interrupt | SIGTERM.

(** What the goroutines started by [Run] run, each with the server it
    serves. *)
Inductive Task :=
| StartTLS (server : http_Server) (address certFile keyFile : string)
| StartServer (server : http_Server)
| ListenAndServePprof (addr : string).

(** An assignment to a field of [s.echo.Server]. *)
Inductive Assign :=
| SetReadTimeout (d : Z)
| SetWriteTimeout (d : Z)
| SetMaxHeaderBytes (n : Z).

Inductive Effect :=
| DoMapHandlers
| Assigned (a : Assign)
| Go (sets : list Assign) (t : Task)
| Notify (sigs : list Signal)
| Receive
| Info (msg : string)
| Shutdown (timeout : Z).

(** [echo.StartTLS(address, ...)] serves the echo's [TLSServer], listening
    on [address]; [s.echo.Server] has no part in it. *)
Definition tls_server (e : Echo) (address : string) : http_Server :=
  mk_http_Server address (srv_ReadTimeout (echo_TLSServer e))
    (srv_WriteTimeout (echo_TLSServer e))
    (srv_MaxHeaderBytes (echo_TLSServer e)).

(** What [Run] has done and, when it returned, its result.  [MapHandlers]
    and [shutdown] stand for the outcomes of [s.MapHandlers] and of
    [s.echo.Server.Shutdown]; the deferred cancellation of the shutdown
    deadline and what the goroutines log are left out. *)
Definition Run (cfg : ServerConfig) (e : Echo)
    (MapHandlers : option error) (shutdown : Z -> option error) :
    list Effect * option error :=
  if SSL cfg then
    match MapHandlers with
    | Some err => ([DoMapHandlers], Some err)
    | None =>
        ([DoMapHandlers;
          Assigned (SetReadTimeout (mul_Duration Second (ReadTimeout cfg)));
          Assigned (SetWriteTimeout (mul_Duration Second (WriteTimeout cfg)));
          Go [SetReadTimeout (mul_Duration Second (ReadTimeout cfg));
              SetWriteTimeout (mul_Duration Second (WriteTimeout cfg));
              SetMaxHeaderBytes maxHeaderBytes]
            (StartTLS (tls_server e (Port cfg)) (Port cfg) certFile keyFile);
          Go [] (ListenAndServePprof (PprofPort cfg));
          Notify [Interrupt; SIGTERM];
          Receive;
          Info "Server Exited Properly";
          Shutdown (ctxTimeout * Second)],
         shutdown (ctxTimeout * Second))
    end
  else
    let server :=
      mk_http_Server (Port cfg)
        (mul_Duration Second (ReadTimeout cfg))
        (mul_Duration Second (WriteTimeout cfg))
        maxHeaderBytes in
    ([Go [] (StartServer server);
      Go [] (ListenAndServePprof (PprofPort cfg));
      Notify [Interrupt; SIGTERM];
      Receive;
      Info "Server Exited Properly";
      Shutdown (ctxTimeout * Second)],
     shutdown (ctxTimeout * Second)).

(** The tasks among what was done, and the server a task serves. *)
Definition tasks_of (effects : list Effect) : list Task :=
  omap (fun e => match e with Go _ t => Some t | _ => None end) effects.

Definition served_by (t : Task) : option http_Server :=
  match t with
  | StartTLS server _ _ _ => Some server
  | StartServer server => Some server
  | ListenAndServePprof _ => None
  end.

(** The assignments made to [s.echo.Server], by [Run] and by the goroutines
    it started, and that server once they are made. *)
Definition assignments_of (effects : list Effect) : list Assign :=
  List.concat
    (List.map (fun e => match e with
                        | Assigned a => [a]
                        | Go sets _ => sets
                        | _ => []
                        end) effects).

Definition assign (srv : http_Server) (a : Assign) : http_Server :=
  match a with
  | SetReadTimeout d =>
      mk_http_Server (Addr srv) d (srv_WriteTimeout srv)
        (srv_MaxHeaderBytes srv)
  | SetWriteTimeout d =>
      mk_http_Server (Addr srv) (srv_ReadTimeout srv) d
        (srv_MaxHeaderBytes srv)
  | SetMaxHeaderBytes n =>
      mk_http_Server (Addr srv) (srv_ReadTimeout srv) (srv_WriteTimeout srv) n
  end.

Definition Server_after (e : Echo) (effects : list Effect) : http_Server :=
  List.fold_left assign (assignments_of effects) (echo_Server e).

(** [GET], [PUT] or [DELETE /auth/<id>] on a directory of three users. *)
Definition fx_with_id (id : string) : St (Recorded Mem) :=
  fx_start (fx_request "Grace;Hopper" [] [("user_id", id)] [])
    (fx_directory 3).

(** A configuration whose session cookie is not called "session-id", and a
    logout under it while the cache backend is reachable. *)
Definition fx_cfg_sid : Config := mkConfig "sid" 3600.

Definition fx_logout_ok : St Mem :=
  mkSt (fx_request "" [("session-id", "sid-0")] [] []) (fx_empty true) [].

(** A request whose body the fixture can sanitize. *)
Definition fx_json_body : St Mem :=
  mkSt (fx_request "{}" [] [] [("page", "1")]) (fx_empty true) [].

(** A plain server with timeouts of five seconds, the same under SSL, and
    an echo as [echo.New()] makes it, both servers being zero values. *)
Definition fx_server_cfg : ServerConfig :=
  mkServerConfig false ":5000" ":5555" 5 5.

Definition fx_tls_cfg : ServerConfig :=
  mkServerConfig true ":5000" ":5555" 5 5.

Definition fx_echo : Echo :=
  mkEcho (mk_http_Server "" 0 0 0) (mk_http_Server "" 0 0 0).

Definition fx_plain_server : http_Server :=
  mk_http_Server ":5000" 5000000000 5000000000 1048576.


(** * Properties *)

Lemma app_one_neq {A : Type} (l : list A) (x : A) : l ++ [x] <> l.
Proof.
  intros E. apply (f_equal (@length A)) in E.
  rewrite length_app in E. simpl in E. lia.
Qed.
Section RegisterLogin.
Context {W : Type} {UC : UseCase W} {SUC : UCSession W} {P : Pkg}.
Variable cfg : Config.
Implicit Type s : St (Recorded W).

(** C1.  When user creation succeeds and session creation then fails,
    [Register] answers with the session-creation error, sets no cookie, and
    makes no further call: the collaborators saw [Register] and
    [CreateSession] and nothing else (no deletion, no rollback), and the
    world is left as the failed [CreateSession] left it.  So whatever the
    Session Store does not undo, the created user among it, is still
    persisted when the handler returns. *)
Theorem Register_session_failure_keeps_user s user createdUser w1 err w2 :
  ReadRequest_Register (ctx s) = Ok user ->
  authUC_Register user (inner (world s)) = (Ok createdUser, w1) ->
  sessUC_CreateSession (mkSession "" (ID (uwt_User createdUser)))
    (Session_Expire cfg) w1 = (Err err, w2) ->
  writes (Register cfg s) = writes s ++ [error_write err] /\
  cookies_set (Register cfg s) = cookies_set s /\
  calls (world (Register cfg s)) =
    calls (world s) ++
      [CallRegister user;
       CallCreateSession (mkSession "" (ID (uwt_User createdUser)))
         (Session_Expire cfg)] /\
  inner (world (Register cfg s)) = w2 /\
  (forall persisted : W -> Prop,
     (forall sess expire w,
        persisted w -> persisted (sessUC_CreateSession sess expire w).2) ->
     persisted w1 -> persisted (inner (world (Register cfg s)))).
Proof.
  intros Hread Hreg Hsess.
  unfold Register. rewrite Hread.
  unfold call; simpl. unfold record. rewrite Hreg. simpl. rewrite Hsess.
  simpl. rewrite <- app_assoc. repeat split.
  intros persisted Hframe Hw1.
  specialize (Hframe (mkSession "" (ID (uwt_User createdUser)))
                (Session_Expire cfg) w1 Hw1).
  rewrite Hsess in Hframe. exact Hframe.
Qed.
End RegisterLogin.

Section SessionCookie.
Context {W : Type} {UC : UseCase W} {SUC : UCSession W} {P : Pkg}.
Variable cfg : Config.
Implicit Type s : St W.

(** A step failed with [e]: no run of all steps exists, no cookie was set
    and the write is that of [e]. *)
Ltac failed_step e :=
  right; split;
  [ intros ? ? (? & ? & ? & ? & ? & ?); congruence
  | split; [reflexivity | exists e; reflexivity] ].

Lemma Register_outcome s :
  (exists createdUser sess,
      Register_steps cfg s createdUser sess /\
      cookies_set (Register cfg s) =
        cookies_set s ++ [CreateSessionCookie cfg sess] /\
      writes (Register cfg s) =
        writes s ++ [(StatusCreated, Some (JUserWithToken createdUser))])
  \/ ((forall createdUser sess, ~ Register_steps cfg s createdUser sess) /\
      cookies_set (Register cfg s) = cookies_set s /\
      exists err, writes (Register cfg s) = writes s ++ [error_write err]).
Proof.
  unfold Register, Register_steps.
  destruct (ReadRequest_Register (ctx s)) as [user|e] eqn:Hread.
  - unfold call.
    destruct (authUC_Register user (world s)) as [[cu|e] w1] eqn:Hreg.
    + cbn [world ctx logged].
      destruct (sessUC_CreateSession (mkSession "" (ID (uwt_User cu)))
                  (Session_Expire cfg) w1) as [[sess|e] w2] eqn:Hsess.
      * left. exists cu, sess. split; [|split; reflexivity].
        exists user, w1, w2. auto.
      * failed_step e.
    + failed_step e.
  - failed_step e.
Qed.

Lemma Login_outcome s :
  (exists userWithToken sess,
      Login_steps cfg s userWithToken sess /\
      cookies_set (Login cfg s) =
        cookies_set s ++ [CreateSessionCookie cfg sess] /\
      writes (Login cfg s) =
        writes s ++ [(StatusOK, Some (JUserWithToken userWithToken))])
  \/ ((forall userWithToken sess, ~ Login_steps cfg s userWithToken sess) /\
      cookies_set (Login cfg s) = cookies_set s /\
      exists err, writes (Login cfg s) = writes s ++ [error_write err]).
Proof.
  unfold Login, Login_steps.
  destruct (ReadRequest_Login (ctx s)) as [login|e] eqn:Hread.
  - unfold call.
    destruct (authUC_Login login (world s)) as [[u|e] w1] eqn:Hlog.
    + cbn [world ctx logged].
      destruct (sessUC_CreateSession (mkSession "" (ID (uwt_User u)))
                  (Session_Expire cfg) w1) as [[sess|e] w2] eqn:Hsess.
      * left. exists u, sess. split; [|split; reflexivity].
        exists login, w1, w2. auto.
      * failed_step e.
    + failed_step e.
  - failed_step e.
Qed.

Lemma Register_steps_det s u sess u' sess' :
  Register_steps cfg s u sess -> Register_steps cfg s u' sess' ->
  u = u' /\ sess = sess'.
Proof.
  intros (r & w1 & w2 & A1 & A2 & A3) (r' & w1' & w2' & B1 & B2 & B3).
  rewrite A1 in B1. injection B1 as <-.
  rewrite A2 in B2. injection B2 as <- <-.
  rewrite A3 in B3. injection B3 as <- <-. auto.
Qed.

Lemma Login_steps_det s u sess u' sess' :
  Login_steps cfg s u sess -> Login_steps cfg s u' sess' ->
  u = u' /\ sess = sess'.
Proof.
  intros (r & w1 & w2 & A1 & A2 & A3) (r' & w1' & w2' & B1 & B2 & B3).
  rewrite A1 in B1. injection B1 as <-.
  rewrite A2 in B2. injection B2 as <- <-.
  rewrite A3 in B3. injection B3 as <- <-. auto.
Qed.

Lemma user_write_no_error code u :
  ~ is_error_write (code, Some (JUserWithToken u)).
Proof. intros [r Hr]. discriminate Hr. Qed.

(** C9.  [Register] and [Login] hand a session cookie to [c.SetCookie]
    exactly when the request parse, the user operation and the session
    creation all succeed, and then they answer 201 (resp. 200) with the
    user; otherwise they set no cookie and the body written is a REST
    error.  So a cookie never travels with an error body. *)
Theorem session_cookie_iff_all_steps_succeed s :
  (((exists u sess, Register_steps cfg s u sess) <->
      cookies_set (Register cfg s) <> cookies_set s) /\
   (forall u sess, Register_steps cfg s u sess ->
      cookies_set (Register cfg s) =
        cookies_set s ++ [CreateSessionCookie cfg sess] /\
      writes (Register cfg s) =
        writes s ++ [(StatusCreated, Some (JUserWithToken u))]) /\
   (~ (exists u sess, Register_steps cfg s u sess) ->
      cookies_set (Register cfg s) = cookies_set s /\
      exists err, writes (Register cfg s) = writes s ++ [error_write err]) /\
   (forall wr, writes (Register cfg s) = writes s ++ [wr] ->
      is_error_write wr -> cookies_set (Register cfg s) = cookies_set s))
  /\
  (((exists u sess, Login_steps cfg s u sess) <->
      cookies_set (Login cfg s) <> cookies_set s) /\
   (forall u sess, Login_steps cfg s u sess ->
      cookies_set (Login cfg s) =
        cookies_set s ++ [CreateSessionCookie cfg sess] /\
      writes (Login cfg s) =
        writes s ++ [(StatusOK, Some (JUserWithToken u))]) /\
   (~ (exists u sess, Login_steps cfg s u sess) ->
      cookies_set (Login cfg s) = cookies_set s /\
      exists err, writes (Login cfg s) = writes s ++ [error_write err]) /\
   (forall wr, writes (Login cfg s) = writes s ++ [wr] ->
      is_error_write wr -> cookies_set (Login cfg s) = cookies_set s)).
Proof.
  split.
  - destruct (Register_outcome s) as
      [(u & sess & Hs & Hc & Hw) | (Hn & Hc & err & Hw)].
    + split; [split|split; [|split]].
      * intros _. rewrite Hc. apply app_one_neq.
      * intros _. eauto.
      * intros u' sess' Hs'.
        destruct (Register_steps_det s u sess u' sess' Hs Hs') as [<- <-].
        auto.
      * intros Hno. destruct Hno. eauto.
      * intros wr Hwr Herr. rewrite Hw in Hwr.
        apply app_inj_tail in Hwr as [_ <-].
        destruct (user_write_no_error _ _ Herr).
    + split; [split|split; [|split]].
      * intros (u & sess & Hs). destruct (Hn u sess Hs).
      * intros Hne. destruct (Hne Hc).
      * intros u sess Hs. destruct (Hn u sess Hs).
      * intros _. eauto.
      * auto.
  - destruct (Login_outcome s) as
      [(u & sess & Hs & Hc & Hw) | (Hn & Hc & err & Hw)].
    + split; [split|split; [|split]].
      * intros _. rewrite Hc. apply app_one_neq.
      * intros _. eauto.
      * intros u' sess' Hs'.
        destruct (Login_steps_det s u sess u' sess' Hs Hs') as [<- <-].
        auto.
      * intros Hno. destruct Hno. eauto.
      * intros wr Hwr Herr. rewrite Hw in Hwr.
        apply app_inj_tail in Hwr as [_ <-].
        destruct (user_write_no_error _ _ Herr).
    + split; [split|split; [|split]].
      * intros (u & sess & Hs). destruct (Hn u sess Hs).
      * intros Hne. destruct (Hne Hc).
      * intros u sess Hs. destruct (Hn u sess Hs).
      * intros _. eauto.
      * auto.
Qed.
End SessionCookie.

(** ** Parse failures of [strconv.Atoi] *)

Lemma scan_digits_all_digits s : forall n v,
  scan_digits s n = inr v -> all_digits s = true.
Proof.
  induction s as [|ch rest IH]; intros n v Hscan; [reflexivity|].
  simpl in *. destruct (is_digit ch); [|discriminate].
  destruct (maxUint64 <? n * 10 + (byte_of ch - 48)); [discriminate|].
  simpl. eapply IH, Hscan.
Qed.

Lemma scan_digits_not_all_digits s n :
  all_digits s = false -> exists k, scan_digits s n = inl k.
Proof.
  intros Hnot. destruct (scan_digits s n) as [k|v] eqn:Hscan; [eauto|].
  apply scan_digits_all_digits in Hscan. congruence.
Qed.

(** [strconv.Atoi] refuses whatever is not written as a decimal integer. *)
Lemma Atoi_not_decimal s :
  decimal_integer s = false ->
  exists k, Atoi s = Err (NumError "Atoi" s k).
Proof.
  destruct s as [|ch rest]; [exists ErrSyntax; reflexivity|].
  unfold decimal_integer, Atoi.
  destruct (Ascii.eqb ch "-" || Ascii.eqb ch "+") eqn:Hsign.
  - destruct rest as [|c r]; [exists ErrSyntax; reflexivity|].
    cbn [String.eqb negb andb]. intros Hno.
    destruct (scan_digits_not_all_digits (String c r) 0 Hno) as [k Hk].
    rewrite Hk. eauto.
  - intros Hno.
    destruct (scan_digits_not_all_digits (String ch rest) 0 Hno) as [k Hk].
    rewrite Hk. eauto.
Qed.
Section Guards.
Context {W : Type} {UC : UseCase W} {SUC : UCSession W} {P : Pkg}.
Variable cfg : Config.
Implicit Type s : St (Recorded W).

(** C2, as the code has it.  Without a cookie named "session-id" [Logout]
    answers 401 with an Unauthorized body and calls nothing.  With the
    cookie it calls [DeleteByID] with the cookie's value, once; if that
    succeeds it sets the clearing cookie and answers 200 with no body, and
    if that fails it answers with the error as [ErrorResponse] maps it and
    sets no cookie. *)
Theorem Logout_by_cookie s :
  match assoc "session-id" (Cookies (request (ctx s))) with
  | None =>
      writes (Logout cfg s) =
        writes s ++
          [(StatusUnauthorized, Some (JRestError NewUnauthorizedError))] /\
      cookies_set (Logout cfg s) = cookies_set s /\
      calls (world (Logout cfg s)) = calls (world s) /\
      inner (world (Logout cfg s)) = inner (world s)
  | Some value =>
      calls (world (Logout cfg s)) =
        calls (world s) ++ [CallDeleteByID value] /\
      inner (world (Logout cfg s)) =
        (sessUC_DeleteByID value (inner (world s))).2 /\
      match (sessUC_DeleteByID value (inner (world s))).1 with
      | None =>
          cookies_set (Logout cfg s) =
            cookies_set s ++
              [mkCookie (Session_Name cfg) "" "/" (-1) false false] /\
          writes (Logout cfg s) = writes s ++ [(StatusOK, None)]
      | Some err =>
          cookies_set (Logout cfg s) = cookies_set s /\
          writes (Logout cfg s) = writes s ++ [error_write err]
      end
  end.
Proof.
  unfold Logout, Cookie_.
  destruct (assoc "session-id" (Cookies (request (ctx s)))) as [value|].
  - unfold call. cbn [world sessUC_DeleteByID Recorded_UCSession].
    unfold record.
    destruct (sessUC_DeleteByID value (inner (world s))) as [[err|] w1];
      repeat split.
  - repeat split.
Qed.

(** C5.  With an empty or missing [name] query parameter [FindByName]
    answers 400 with a Bad Request body and makes no call; with a name,
    a readable pagination and a successful search it answers 200 with the
    list found. *)
Theorem FindByName_requires_name s :
  (QueryParam "name" (ctx s) = "" ->
     writes (FindByName s) =
       writes s ++ [(StatusBadRequest, Some (JRestError NewBadRequestError))]
     /\ calls (world (FindByName s)) = calls (world s)
     /\ inner (world (FindByName s)) = inner (world s)) /\
  (forall pq l w1,
     QueryParam "name" (ctx s) <> "" ->
     GetPaginationFromCtx (ctx s) = Ok pq ->
     authUC_FindByName (QueryParam "name" (ctx s)) pq (inner (world s)) =
       (Ok l, w1) ->
     writes (FindByName s) = writes s ++ [(StatusOK, Some (JUsersList l))]
     /\ calls (world (FindByName s)) =
          calls (world s) ++ [CallFindByName (QueryParam "name" (ctx s)) pq]
     /\ inner (world (FindByName s)) = w1).
Proof.
  unfold FindByName. split.
  - intros ->. repeat split.
  - intros pq l w1 Hname Hpq Hfind.
    apply String.eqb_neq in Hname. rewrite Hname, Hpq.
    unfold call. cbn [world authUC_FindByName Recorded_UseCase].
    unfold record. rewrite Hfind. repeat split.
Qed.

(** C10.  When the [user_id] path parameter is not a decimal integer,
    [strconv.Atoi] fails, and each of [Update], [GetUserByID] and [Delete]
    answers with that failure as [ErrorResponse] maps it, makes no call
    and leaves the world as it was. *)
Theorem malformed_user_id_calls_no_use_case s :
  decimal_integer (Param "user_id" (ctx s)) = false ->
  exists k,
    let err := NumError "Atoi" (Param "user_id" (ctx s)) k in
    Atoi (Param "user_id" (ctx s)) = Err err /\
    Forall (fun h : St (Recorded W) -> St (Recorded W) =>
              writes (h s) = writes s ++ [error_write err] /\
              cookies_set (h s) = cookies_set s /\
              calls (world (h s)) = calls (world s) /\
              inner (world (h s)) = inner (world s))
      [Update; GetUserByID; Delete].
Proof.
  intros Hno. destruct (Atoi_not_decimal _ Hno) as [k Hk].
  exists k. cbv zeta. split; [exact Hk|].
  repeat constructor; unfold Update, GetUserByID, Delete; rewrite Hk;
    reflexivity.
Qed.
End Guards.

Section ContextGuards.
Context {W : Type} {P : Pkg}.
Implicit Type s : St W.

(** C3.  [GetMe] answers 200 with the current user when the context holds
    a value of type [*models.UserWithRole] under "user"; in every other
    case (no value, or a value of another type) it answers with the
    Unauthorized error, status 401.  The world is not touched. *)
Theorem GetMe_requires_current_user s :
  match Get "user" (ctx s) with
  | AnyUserWithRole user =>
      writes (GetMe s) = writes s ++ [(StatusOK, Some (JUserWithRole user))]
  | _ =>
      writes (GetMe s) =
        writes s ++
          [(StatusUnauthorized, Some (JRestError NewUnauthorizedError))]
  end /\
  (store (ctx s) !! "user" = None ->
     writes (GetMe s) =
       writes s ++
         [(StatusUnauthorized, Some (JRestError NewUnauthorizedError))]) /\
  world (GetMe s) = world s.
Proof.
  unfold GetMe. split; [|split].
  - destruct (Get "user" (ctx s)); reflexivity.
  - unfold Get. intros ->. reflexivity.
  - destruct (Get "user" (ctx s)); reflexivity.
Qed.





(** C8.  When the body cannot be read, or [SanitizeJSON] refuses it,
    [Sanitize] answers 400 without a body and its result does not depend
    on [next], which is therefore not run.  Otherwise [next] runs, once,
    on the context in which "body" holds the sanitized bytes, everything
    else in the store, the response and the world being as before; the
    body is closed when [next] has returned. *)
Theorem Sanitize_guards_next s :
  match Body (request (ctx s)) with
  | BodyFail _ =>
      forall next next',
        writes (Sanitize next s) = writes s ++ [(StatusBadRequest, None)] /\
        world (Sanitize next s) = world s /\
        Sanitize next s = Sanitize next' s
  | BodyData data =>
      match SanitizeJSON data with
      | Err _ =>
          forall next next',
            writes (Sanitize next s) =
              writes s ++ [(StatusBadRequest, None)] /\
            world (Sanitize next s) = world s /\
            Sanitize next s = Sanitize next' s
      | Ok sanBody =>
          exists s_in,
            (forall next, Sanitize next s = on_ctx Close (next s_in)) /\
            Get "body" (ctx s_in) = AnyBytes sanBody /\
            (forall k, k <> "body" -> Get k (ctx s_in) = Get k (ctx s)) /\
            response (ctx s_in) = response (ctx s) /\
            world s_in = world s
      end
  end.
Proof.
  unfold Sanitize, ReadAll.
  destruct (Body (request (ctx s))) as [data|e].
  - destruct (SanitizeJSON data) as [sanBody|e].
    + eexists. split; [intros next; reflexivity|].
      split; [|split; [|split; reflexivity]].
      * unfold Get. cbn. rewrite lookup_insert_eq. reflexivity.
      * intros k Hk. unfold Get. cbn.
        rewrite lookup_insert_ne by congruence. reflexivity.
    + intros next next'. repeat split.
  - intros next next'. repeat split.
Qed.
End ContextGuards.

(** ** The pagination envelope *)

Lemma ceiling_in_integers (a b : Z) :
  0 < b -> (- ((- a) / b) = (a + b - 1) / b)%Z.
Proof.
  intros Hb.
  pose proof (Z.div_mod (a + b - 1) b ltac:(lia)) as Hq.
  pose proof (Z.mod_pos_bound (a + b - 1) b Hb) as Hr.
  symmetry. apply Z.opp_inj. rewrite Z.opp_involutive.
  apply (Z.div_unique (- a) b _ (b - 1 - (a + b - 1) mod b)); lia.
Qed.

(** The integer computation of the page count is the ceiling of the
    quotient [total_count / size]. *)
Lemma GetTotalPages_ceil (totalCount size : Z) :
  0 < size -> GetTotalPages totalCount size = ceil_div totalCount size.
Proof.
  intros Hsize. unfold GetTotalPages, ceil_div, Qceiling, Qfloor.
  destruct size as [|p|p]; try lia.
  cbn [inject_Z Qdiv Qinv Qnum Qden Qmult Qopp].
  rewrite Z.mul_1_r, Pos.mul_1_l, ceiling_in_integers by lia.
  reflexivity.
Qed.

Lemma paginate_invariant pq found l :
  paginate pq found = Ok l ->
  0 < Size l /\ 0 < Page l /\
  TotalCount l = Z.of_nat (length found) /\
  TotalPages l = ceil_div (TotalCount l) (Size l) /\
  HasMore l = (Page l <? TotalPages l).
Proof.
  unfold paginate.
  destruct (pq_Page pq <? 1) eqn:Hp; [discriminate|].
  destruct (pq_Size pq <? 1) eqn:Hs; [discriminate|].
  cbn [orb]. intros [= <-]. cbn [Size Page TotalCount TotalPages HasMore].
  apply Z.ltb_ge in Hp, Hs.
  rewrite GetTotalPages_ceil by lia. unfold GetHasMore.
  rewrite GetTotalPages_ceil by lia. repeat split; lia.
Qed.
Lemma error_write_not_list {P : Pkg} err code l :
  error_write err <> (code, Some (JUsersList l)).
Proof. unfold error_write. congruence. Qed.

Lemma envelope_of_handlers {P : Pkg} (hashPassword : string -> string)
    (s : St Mem) (l : UsersList) :
  writes (GetUsers (UC := Mem_UseCase hashPassword) s) =
    writes s ++ [(StatusOK, Some (JUsersList l))] \/
  writes (FindByName (UC := Mem_UseCase hashPassword) s) =
    writes s ++ [(StatusOK, Some (JUsersList l))] ->
  exists pq found, paginate pq found = Ok l.
Proof.
  intros [Hw|Hw].
  - unfold GetUsers in Hw.
    destruct (GetPaginationFromCtx (ctx s)) as [pq|e].
    + unfold call in Hw. cbn [world authUC_GetUsers Mem_UseCase] in Hw.
      unfold mem_GetUsers in Hw.
      destruct (order_of (pq_OrderBy pq)) as [le|].
      * destruct (paginate pq (sort_by le (mem_users (world s))))
          as [l'|e] eqn:Hp.
        -- apply app_inj_tail in Hw as [_ [= <-]]. eauto.
        -- apply app_inj_tail in Hw as [_ Hw].
           destruct (error_write_not_list _ _ _ Hw).
      * apply app_inj_tail in Hw as [_ Hw].
        destruct (error_write_not_list _ _ _ Hw).
    + apply app_inj_tail in Hw as [_ Hw].
      destruct (error_write_not_list _ _ _ Hw).
  - unfold FindByName in Hw.
    destruct (String.eqb (QueryParam "name" (ctx s)) "").
    + apply app_inj_tail in Hw as [_ Hw]. discriminate Hw.
    + destruct (GetPaginationFromCtx (ctx s)) as [pq|e].
      * unfold call in Hw. cbn [world authUC_FindByName Mem_UseCase] in Hw.
        unfold mem_FindByName in Hw.
        destruct (paginate pq _) as [l'|e] eqn:Hp.
        -- apply app_inj_tail in Hw as [_ [= <-]]. eauto.
        -- apply app_inj_tail in Hw as [_ Hw].
           destruct (error_write_not_list _ _ _ Hw).
      * apply app_inj_tail in Hw as [_ Hw].
        destruct (error_write_not_list _ _ _ Hw).
Qed.

(** C7.  Over the directory of sections 4.3, every [UsersList] that
    [GetUsers] or [FindByName] answers with satisfies
    [total_pages = ceil(total_count / size)] and
    [has_more = (page < total_pages)].  On a directory of 25 users with
    [size = 10], page 2 holds 10 users with 3 pages in total and more to
    come, and page 3 holds 5 users and is the last. *)
Theorem UsersList_envelope_invariant :
  (forall (P : Pkg) (hashPassword : string -> string) (s : St Mem)
          (l : UsersList),
      writes (GetUsers (UC := Mem_UseCase hashPassword) s) =
        writes s ++ [(StatusOK, Some (JUsersList l))] \/
      writes (FindByName (UC := Mem_UseCase hashPassword) s) =
        writes s ++ [(StatusOK, Some (JUsersList l))] ->
      TotalPages l = ceil_div (TotalCount l) (Size l) /\
      HasMore l = (Page l <? TotalPages l)) /\
  (exists l,
      writes (GetUsers (P := fx_Pkg) (fx_list_page "2")) =
        [(StatusOK, Some (JUsersList l))] /\
      Page l = 2 /\ Size l = 10 /\ TotalCount l = 25 /\
      length (Users l) = 10%nat /\ TotalPages l = 3 /\ HasMore l = true) /\
  (exists l,
      writes (GetUsers (P := fx_Pkg) (fx_list_page "3")) =
        [(StatusOK, Some (JUsersList l))] /\
      Page l = 3 /\ Size l = 10 /\ TotalCount l = 25 /\
      length (Users l) = 5%nat /\ TotalPages l = 3 /\ HasMore l = false).
Proof.
  split; [|split].
  - intros P hp s l Hw.
    destruct (envelope_of_handlers hp s l Hw) as (pq & found & Hp).
    apply paginate_invariant in Hp. tauto.
  - eexists. split; [vm_compute; reflexivity|]. vm_compute. tauto.
  - eexists. split; [vm_compute; reflexivity|]. vm_compute. tauto.
Qed.
(** * The properties on concrete requests *)

(** Registration with the cache down: a 500, no cookie, and Ada is in the
    directory. *)
Lemma Register_session_failure_keeps_user_witness :
  writes (Register (P := fx_Pkg) fx_cfg fx_register_cache_down) =
    [(StatusInternalServerError, Some (JRestError NewInternalServerError))] /\
  cookies_set (Register (P := fx_Pkg) fx_cfg fx_register_cache_down) = [] /\
  calls (world (Register (P := fx_Pkg) fx_cfg fx_register_cache_down)) =
    [CallRegister fx_ada_request; CallCreateSession (mkSession "" 1) 3600] /\
  inner (world (Register (P := fx_Pkg) fx_cfg fx_register_cache_down)) =
    fx_ada_registered false.
Proof.
  destruct (Register_session_failure_keeps_user (P := fx_Pkg) fx_cfg
              fx_register_cache_down fx_ada_request
              (mkUserWithToken fx_ada "") (fx_ada_registered false)
              StorageError (fx_ada_registered false))
    as (Hwrite & Hcookie & Hcalls & Hworld & _);
    [reflexivity | reflexivity | reflexivity |].
  repeat split; assumption.
Defined.

(** Logout with the cookie while the cache is down: [DeleteByID] is called,
    the answer is a 500 and the cookie is not cleared. *)
Lemma Logout_store_failure_keeps_cookie :
  Cookie_ "session-id" (ctx fx_logout_cache_down) = Ok "sid-0" /\
  calls (world (Logout (P := fx_Pkg) fx_cfg fx_logout_cache_down)) =
    [CallDeleteByID "sid-0"] /\
  cookies_set (Logout (P := fx_Pkg) fx_cfg fx_logout_cache_down) = [] /\
  writes (Logout (P := fx_Pkg) fx_cfg fx_logout_cache_down) =
    [(StatusInternalServerError, Some (JRestError NewInternalServerError))] /\
  ~ (cookies_set (Logout (P := fx_Pkg) fx_cfg fx_logout_cache_down) =
       cookies_set fx_logout_cache_down ++
         [mkCookie (Session_Name fx_cfg) "" "/" (-1) false false] /\
     writes (Logout (P := fx_Pkg) fx_cfg fx_logout_cache_down) =
       writes fx_logout_cache_down ++ [(StatusOK, None)]).
Proof.
  repeat split; intros [Hcookie _]; discriminate Hcookie.
Qed.

(** A search without a name: a 400 and no call. *)
Lemma FindByName_requires_name_witness :
  writes (FindByName (P := fx_Pkg) fx_find_no_name) =
    [(StatusBadRequest, Some (JRestError NewBadRequestError))] /\
  calls (world (FindByName (P := fx_Pkg) fx_find_no_name)) = [] /\
  inner (world (FindByName (P := fx_Pkg) fx_find_no_name)) = fx_directory 3.
Proof.
  apply (proj1 (FindByName_requires_name (P := fx_Pkg) fx_find_no_name)).
  reflexivity.
Defined.

(** The id "abc": no handler of the three reaches its use case. *)
Lemma malformed_user_id_calls_no_use_case_witness :
  decimal_integer "abc" = false /\
  exists k,
    Atoi "abc" = Err (NumError "Atoi" "abc" k) /\
    Forall (fun h : St (Recorded Mem) -> St (Recorded Mem) =>
              writes (h fx_malformed_id) =
                [error_write (P := fx_Pkg) (NumError "Atoi" "abc" k)] /\
              cookies_set (h fx_malformed_id) = [] /\
              calls (world (h fx_malformed_id)) = [] /\
              inner (world (h fx_malformed_id)) = fx_directory 3)
      [Update (P := fx_Pkg); GetUserByID (P := fx_Pkg); Delete (P := fx_Pkg)].
Proof.
  split; [reflexivity|].
  apply (malformed_user_id_calls_no_use_case (P := fx_Pkg) fx_malformed_id).
  reflexivity.
Defined.


(** The second page of ten out of 25 users. *)
Lemma UsersList_envelope_invariant_witness :
  writes (GetUsers (P := fx_Pkg) (fx_list_page "2")) =
    [(StatusOK, Some (JUsersList fx_second_page))] /\
  TotalPages fx_second_page =
    ceil_div (TotalCount fx_second_page) (Size fx_second_page) /\
  HasMore fx_second_page = (Page fx_second_page <? TotalPages fx_second_page).
Proof.
  assert (Hrun : writes (GetUsers (P := fx_Pkg) (fx_list_page "2")) =
                   [(StatusOK, Some (JUsersList fx_second_page))])
    by (vm_compute; reflexivity).
  split; [exact Hrun|].
  apply (proj1 UsersList_envelope_invariant fx_Pkg fx_hashPassword
           (fx_list_page "2") fx_second_page).
  left. exact Hrun.
Defined.

(** A registration that goes through: a 201 and the session cookie. *)
Lemma session_cookie_iff_all_steps_succeed_witness :
  cookies_set (Register (P := fx_Pkg) fx_cfg fx_register_ok) =
    [fx_CreateSessionCookie fx_cfg "sid-0"] /\
  writes (Register (P := fx_Pkg) fx_cfg fx_register_ok) =
    [(StatusCreated, Some (JUserWithToken (mkUserWithToken fx_ada "")))].
Proof.
  destruct (session_cookie_iff_all_steps_succeed (P := fx_Pkg) fx_cfg
              fx_register_ok) as [(_ & Hok & _) _].
  apply (Hok (mkUserWithToken fx_ada "") "sid-0").
  exists fx_ada_request, (fx_ada_registered true).
  eexists. repeat split.
Defined.

(** * Further properties of the handlers *)

(** ** User ids that are decimal integers *)

Lemma is_digit_bounds ch :
  is_digit ch = true -> 0 <= byte_of ch - 48 <= 9.
Proof.
  unfold is_digit. intros H. apply andb_prop in H as [H1 H2].
  apply Z.leb_le in H1, H2. lia.
Qed.

Lemma digits_value_grows s : forall n,
  all_digits s = true -> 0 <= n -> n <= digits_value s n.
Proof.
  induction s as [|ch rest IH]; intros n Hd Hn; simpl in *; [lia|].
  apply andb_prop in Hd as [Hch Hrest].
  pose proof (is_digit_bounds ch Hch).
  specialize (IH (n * 10 + (byte_of ch - 48)) Hrest). lia.
Qed.

(** The digit loop returns the value of the digits, or a range error when
    that value leaves [uint64]. *)
Lemma scan_digits_value s : forall n,
  all_digits s = true -> 0 <= n <= maxUint64 ->
  scan_digits s n =
    if maxUint64 <? digits_value s n then inl ErrRange
    else inr (digits_value s n).
Proof.
  induction s as [|ch rest IH]; intros n Hd Hn; simpl in *.
  - destruct (Z.ltb_spec maxUint64 n); [lia|reflexivity].
  - apply andb_prop in Hd as [Hch Hrest]. rewrite Hch.
    pose proof (is_digit_bounds ch Hch) as Hb.
    destruct (Z.ltb_spec maxUint64 (n * 10 + (byte_of ch - 48))) as [Hov|Hok].
    + assert (Hn1 : 0 <= n * 10 + (byte_of ch - 48)) by lia.
      pose proof (digits_value_grows rest _ Hrest Hn1) as Hg.
      destruct (Z.ltb_spec maxUint64
                  (digits_value rest (n * 10 + (byte_of ch - 48))));
        [reflexivity|lia].
    + apply IH; [assumption|lia].
Qed.

(** [strconv.Atoi] on a decimal integer: its value when that is an [int64],
    a range error otherwise. *)
Lemma Atoi_decimal s :
  decimal_integer s = true ->
  Atoi s =
    if in_int64 (decimal_value s) then Ok (decimal_value s)
    else Err (NumError "Atoi" s ErrRange).
Proof.
  destruct s as [|ch rest]; [discriminate|].
  unfold decimal_integer, Atoi, decimal_value, in_int64.
  assert (Hmax : 0 <= 0 <= maxUint64) by (unfold maxUint64; lia).
  destruct (Ascii.eqb ch "-") eqn:Hneg; cbn [orb].
  - destruct rest as [|c r]; [discriminate|].
    cbn [String.eqb negb andb]. intros Hd.
    rewrite (scan_digits_value _ 0 Hd Hmax).
    pose proof (digits_value_grows _ 0 Hd (Z.le_refl 0)) as Hg.
    unfold maxUint64, minInt64, maxInt64 in *.
    destruct (Z.ltb_spec (2 ^ 64 - 1) (digits_value (String c r) 0));
      destruct (Z.ltb_spec (- digits_value (String c r) 0) (- 2 ^ 63));
      destruct (Z.leb_spec (- 2 ^ 63) (- digits_value (String c r) 0));
      destruct (Z.leb_spec (- digits_value (String c r) 0) (2 ^ 63 - 1));
      cbn [andb]; try reflexivity; lia.
  - destruct (Ascii.eqb ch "+") eqn:Hpos.
    + destruct rest as [|c r]; [discriminate|].
      cbn [String.eqb negb andb]. intros Hd.
      rewrite (scan_digits_value _ 0 Hd Hmax).
      pose proof (digits_value_grows _ 0 Hd (Z.le_refl 0)) as Hg.
      unfold maxUint64, minInt64, maxInt64 in *.
      destruct (Z.ltb_spec (2 ^ 64 - 1) (digits_value (String c r) 0));
        destruct (Z.ltb_spec (2 ^ 63 - 1) (digits_value (String c r) 0));
        destruct (Z.leb_spec (- 2 ^ 63) (digits_value (String c r) 0));
        destruct (Z.leb_spec (digits_value (String c r) 0) (2 ^ 63 - 1));
        cbn [andb]; try reflexivity; lia.
    + intros Hd.
      rewrite (scan_digits_value _ 0 Hd Hmax).
      pose proof (digits_value_grows _ 0 Hd (Z.le_refl 0)) as Hg.
      unfold maxUint64, minInt64, maxInt64 in *.
      destruct (Z.ltb_spec (2 ^ 64 - 1) (digits_value (String ch rest) 0));
        destruct (Z.ltb_spec (2 ^ 63 - 1) (digits_value (String ch rest) 0));
        destruct (Z.leb_spec (- 2 ^ 63) (digits_value (String ch rest) 0));
        destruct (Z.leb_spec (digits_value (String ch rest) 0) (2 ^ 63 - 1));
        cbn [andb]; try reflexivity; lia.
Qed.

Section UserIds.
Context {W : Type} {UC : UseCase W} {SUC : UCSession W} {P : Pkg}.
Implicit Type s : St (Recorded W).

(** X1.  A [user_id] that is a decimal integer within [int64] is passed on as
    the number it denotes, sign included: [GetUserByID] and [Delete] call
    their use case once with that number and answer 200 (with the user,
    resp. without a body) or with the error the use case returned; [Update]
    hands a zero user carrying that number to the request reader and calls
    its use case with what the reader returns. *)
Theorem wellformed_user_id_is_passed_on s :
  decimal_integer (Param "user_id" (ctx s)) = true ->
  in_int64 (decimal_value (Param "user_id" (ctx s))) = true ->
  let uID := decimal_value (Param "user_id" (ctx s)) in
  (calls (world (GetUserByID s)) = calls (world s) ++ [CallGetByID uID] /\
   writes (GetUserByID s) =
     writes s ++
       [match (authUC_GetByID uID (inner (world s))).1 with
        | Ok user => (StatusOK, Some (JUser user))
        | Err err => error_write err
        end]) /\
  (calls (world (Delete s)) = calls (world s) ++ [CallDelete uID] /\
   writes (Delete s) =
     writes s ++
       [match (authUC_Delete uID (inner (world s))).1 with
        | None => (StatusOK, None)
        | Some err => error_write err
        end]) /\
  match ReadRequest_User (ctx s) (set_ID zeroUser uID) with
  | Ok user =>
      calls (world (Update s)) = calls (world s) ++ [CallUpdate user] /\
      writes (Update s) =
        writes s ++
          [match (authUC_Update user (inner (world s))).1 with
           | Ok updatedUser => (StatusOK, Some (JUser updatedUser))
           | Err err => error_write err
           end]
  | Err err =>
      calls (world (Update s)) = calls (world s) /\
      writes (Update s) = writes s ++ [error_write err]
  end.
Proof.
  intros Hdec Hrange uID.
  pose proof (Atoi_decimal _ Hdec) as Hatoi. rewrite Hrange in Hatoi.
  fold uID in Hatoi.
  unfold GetUserByID, Delete, Update. rewrite Hatoi.
  unfold call.
  cbn [world authUC_GetByID authUC_Delete authUC_Update Recorded_UseCase].
  unfold record. split; [|split].
  - destruct (authUC_GetByID uID (inner (world s))) as [[user|err] w1];
      split; reflexivity.
  - destruct (authUC_Delete uID (inner (world s))) as [[err|] w1];
      split; reflexivity.
  - destruct (ReadRequest_User (ctx s) (set_ID zeroUser uID)) as [user|err];
      [|split; reflexivity].
    cbn [world ctx]. unfold record.
    destruct (authUC_Update user (inner (world s))) as [[u|err] w1];
      split; reflexivity.
Qed.

(** X2.  A [user_id] that is a decimal integer outside [int64] is refused
    with a range error: [Update], [GetUserByID] and [Delete] answer with
    that error, make no call and leave the world as it was. *)
Theorem out_of_range_user_id_calls_no_use_case s :
  decimal_integer (Param "user_id" (ctx s)) = true ->
  in_int64 (decimal_value (Param "user_id" (ctx s))) = false ->
  Forall (fun h : St (Recorded W) -> St (Recorded W) =>
            writes (h s) =
              writes s ++
                [error_write
                   (NumError "Atoi" (Param "user_id" (ctx s)) ErrRange)] /\
            calls (world (h s)) = calls (world s) /\
            inner (world (h s)) = inner (world s))
    [Update; GetUserByID; Delete].
Proof.
  intros Hdec Hrange.
  pose proof (Atoi_decimal _ Hdec) as Hatoi. rewrite Hrange in Hatoi.
  repeat constructor; unfold Update, GetUserByID, Delete; rewrite Hatoi;
    reflexivity.
Qed.
End UserIds.

(** A negative id reaches the use cases as it is. *)
Lemma wellformed_user_id_is_passed_on_witness :
  calls (world (GetUserByID (P := fx_Pkg) (fx_with_id "-2"))) =
    [CallGetByID (-2)] /\
  writes (GetUserByID (P := fx_Pkg) (fx_with_id "-2")) =
    [(404, Some (JRestError (mkRestError 404 "Not Found")))] /\
  calls (world (Delete (P := fx_Pkg) (fx_with_id "-2"))) = [CallDelete (-2)].
Proof.
  destruct (wellformed_user_id_is_passed_on (P := fx_Pkg) (fx_with_id "-2"))
    as ((Hcalls & Hwrite) & (Hdelete & _) & _); [reflexivity | reflexivity |].
  split; [exact Hcalls | split; [exact Hwrite | exact Hdelete]].
Defined.

(** The id 2^63 is one too large. *)
Lemma out_of_range_user_id_calls_no_use_case_witness :
  Forall (fun h : St (Recorded Mem) -> St (Recorded Mem) =>
            writes (h (fx_with_id "9223372036854775808")) =
              [error_write (P := fx_Pkg)
                 (NumError "Atoi" "9223372036854775808" ErrRange)] /\
            calls (world (h (fx_with_id "9223372036854775808"))) = [] /\
            inner (world (h (fx_with_id "9223372036854775808"))) =
              fx_directory 3)
    [Update (P := fx_Pkg); GetUserByID (P := fx_Pkg); Delete (P := fx_Pkg)].
Proof.
  apply (out_of_range_user_id_calls_no_use_case (P := fx_Pkg)
           (fx_with_id "9223372036854775808"));
    reflexivity.
Defined.

(** ** What every handler keeps to *)

(** Case analysis along the branches of a handler: the innermost scrutinee
    first. *)
Ltac branch :=
  match goal with
  | |- context [match ?x with _ => _ end] =>
      lazymatch x with
      | context [match _ with _ => _ end] => fail
      | _ => destruct x eqn:?
      end
  end.

Ltac branches :=
  unfold ErrResponseWithLog, JSON_ErrorResponse, ErrorResponse, call;
  repeat (branch; cbn [world ctx logged]).

(** One goal for each handler of a list. *)
Ltac each_handler :=
  unfold all_handlers, plain_handlers; cbn [app List.map];
  repeat match goal with |- Forall _ _ => constructor end;
  cbn [fst snd];
  unfold Register, Login, Logout, Update, Delete, GetUserByID, FindByName,
    GetUsers, GetMe, GetCSRFToken.

Section Discipline.
Context {W : Type} {UC : UseCase W} {SUC : UCSession W} {P : Pkg}.
Variable cfg : Config.
Implicit Type s : St W.

Lemma error_write_is_error err : is_error_write (error_write err).
Proof. eexists. reflexivity. Qed.

Lemma no_body_is_no_error code : ~ is_error_write (code, None).
Proof. intros [r Hr]. discriminate Hr. Qed.

(** X3.  Every handler answers exactly once.  What it writes is either a
    REST error body or the success answer, whose status is 201 for
    [Register] and 200 for every other handler. *)
Theorem handlers_answer_once s :
  Forall (fun hc : (St W -> St W) * Z =>
            exists wr,
              writes (hc.1 s) = writes s ++ [wr] /\
              (is_error_write wr \/ wr.1 = hc.2))
    ((Register cfg, StatusCreated) ::
     List.map (fun h => (h, StatusOK))
       ([Login cfg; Logout cfg] ++ plain_handlers)).
Proof.
  each_handler; branches;
    (eexists; split; [reflexivity|];
     first [right; reflexivity | left; eexists; reflexivity]).
Qed.

(** X4.  A handler hands an error to the logger exactly when it answers
    with an error body: the success paths log nothing, and no error is
    answered without being logged. *)
Theorem error_answers_are_logged s :
  Forall (fun h : St W -> St W =>
            exists wr new,
              writes (h s) = writes s ++ [wr] /\
              logged (h s) = logged s ++ new /\
              (is_error_write wr <-> new <> []))
    (all_handlers cfg).
Proof.
  each_handler; branches;
    (do 2 eexists; split; [reflexivity|]; split;
     [ first [ symmetry; apply app_nil_r
             | reflexivity
             | cbn [logged LogResponseError JSON on_ctx];
               rewrite <- app_assoc; reflexivity ]
     | split;
       [ first [ intros _; discriminate
               | intros [? Hr]; cbn in Hr; discriminate Hr ]
       | first [ intros _; eexists; reflexivity
               | intros Hnew; destruct Hnew; reflexivity ] ] ]).
Qed.

(** X5.  Seven of the ten handlers never hand a cookie to [c.SetCookie]:
    all but [Register], [Login] and [Logout]. *)
Theorem plain_handlers_set_no_cookie s :
  Forall (fun h : St W -> St W => cookies_set (h s) = cookies_set s)
    plain_handlers.
Proof.
  each_handler; branches; reflexivity.
Qed.

(** X6.  [Logout] reads the cookie under the fixed name "session-id" but
    clears the cookie named by the configuration: whatever it hands to
    [c.SetCookie] carries [cfg.Session.Name], so under a configuration with
    another session name the cookie it read is never the one it clears. *)
Theorem Logout_clears_configured_name s :
  Session_Name cfg <> "session-id" ->
  exists new,
    cookies_set (Logout cfg s) = cookies_set s ++ new /\
    Forall (fun ck => ck_Name ck = Session_Name cfg) new /\
    Forall (fun ck => ck_Name ck <> "session-id") new.
Proof.
  intros Hname. unfold Logout. branches;
    (eexists; split;
     [ first [symmetry; apply app_nil_r | reflexivity]
     | split; repeat constructor; assumption ]).
Qed.
End Discipline.

(** Under the session name "sid" a logout clears "sid", not "session-id". *)
Lemma Logout_clears_configured_name_witness :
  exists new,
    cookies_set (Logout (P := fx_Pkg) fx_cfg_sid fx_logout_ok) = [] ++ new /\
    Forall (fun ck => ck_Name ck = "sid") new /\
    Forall (fun ck => ck_Name ck <> "session-id") new.
Proof.
  apply (Logout_clears_configured_name (P := fx_Pkg) fx_cfg_sid fx_logout_ok).
  discriminate.
Defined.

(** Case analysis along the branches of a handler over a recording world. *)
Ltac recorded_branches :=
  unfold ErrResponseWithLog, JSON_ErrorResponse, ErrorResponse, call;
  cbn [world authUC_Register authUC_Login authUC_Update authUC_Delete
       authUC_GetByID authUC_FindByName authUC_GetUsers sessUC_CreateSession
       sessUC_DeleteByID Recorded_UseCase Recorded_UCSession];
  unfold record;
  repeat (branch; cbn [world ctx logged inner calls]).

(** The calls made are a list appended to those made before. *)
Ltac appended :=
  first [ symmetry; apply app_nil_r
        | reflexivity
        | cbn [world calls JSON NoContent SetCookie DeleteSessionCookie
               LogResponseError on_ctx];
          rewrite <- app_assoc; reflexivity ].

Section CallDiscipline.
Context {W : Type} {UC : UseCase W} {SUC : UCSession W} {P : Pkg}.
Variable cfg : Config.
Implicit Type s : St (Recorded W).

(** X7.  [Register] and [Login] create a session only after their use case
    has returned a user, and then for that user: a [CreateSession] among
    their calls comes right after the one call to [Register] (resp. [Login])
    that succeeded, carries the id of the user returned, no session id and
    the configured expiry, and is their last call. *)
Theorem session_created_only_for_returned_user s :
  (exists new,
      calls (world (Register cfg s)) = calls (world s) ++ new /\
      forall sess expire,
        In (CallCreateSession sess expire) new ->
        exists user createdUser w1,
          ReadRequest_Register (ctx s) = Ok user /\
          authUC_Register user (inner (world s)) = (Ok createdUser, w1) /\
          new =
            [CallRegister user;
             CallCreateSession (mkSession "" (ID (uwt_User createdUser)))
               (Session_Expire cfg)]) /\
  (exists new,
      calls (world (Login cfg s)) = calls (world s) ++ new /\
      forall sess expire,
        In (CallCreateSession sess expire) new ->
        exists login userWithToken w1,
          ReadRequest_Login (ctx s) = Ok login /\
          authUC_Login login (inner (world s)) = (Ok userWithToken, w1) /\
          new =
            [CallLogin login;
             CallCreateSession (mkSession "" (ID (uwt_User userWithToken)))
               (Session_Expire cfg)]).
Proof.
  split; [unfold Register | unfold Login]; recorded_branches;
    (eexists; split; [appended|];
     intros sess expire Hin; cbn in Hin;
     repeat match goal with
            | H : _ \/ _ |- _ => destruct H
            | H : False |- _ => destruct H
            | H : CallRegister _ = CallCreateSession _ _ |- _ => discriminate H
            | H : CallLogin _ = CallCreateSession _ _ |- _ => discriminate H
            end;
     do 3 eexists; repeat split; eassumption).
Qed.

(** X8.  Every other handler makes at most one call, and only to the method
    that is its own: [Logout] to [DeleteByID], [Update] to [Update],
    [GetUserByID] to [GetByID], [Delete] to [Delete], [FindByName] to
    [FindByName], [GetUsers] to [GetUsers]; [GetMe] and [GetCSRFToken] call
    nothing.  So the handlers behind the GET routes never reach a method
    that changes users or sessions. *)
Theorem handlers_call_their_own_method s :
  Forall (fun hm : (St (Recorded W) -> St (Recorded W)) * list string =>
            exists new,
              calls (world (hm.1 s)) = calls (world s) ++ new /\
              (length new <= 1)%nat /\
              Forall (fun k => In (call_name k) hm.2) new)
    [(Logout cfg, ["DeleteByID"]); (Update, ["Update"]);
     (GetUserByID, ["GetByID"]); (Delete, ["Delete"]);
     (FindByName, ["FindByName"]); (GetUsers, ["GetUsers"]);
     (GetMe, []); (GetCSRFToken, [])].
Proof.
  each_handler; recorded_branches;
    (eexists; split; [appended|]; split;
     [ cbn; lia | repeat constructor ]).
Qed.
End CallDiscipline.

(** * Further properties of the middleware *)

Section Middleware.
Context {W : Type} {UC : UseCase W} {SUC : UCSession W} {P : Pkg}.
Variable cfg : Config.
Implicit Type s : St W.

Lemma Sanitize_pass s data sanBody :
  Body (request (ctx s)) = BodyData data ->
  SanitizeJSON data = Ok sanBody ->
  forall next,
    Sanitize next s =
      on_ctx Close
        (next (on_ctx (Set_ "body" (AnyBytes sanBody))
                 (mkSt (ReadAll (ctx s)).2 (world s) (logged s)))).
Proof.
  intros Hbody Hsan next. unfold Sanitize, ReadAll.
  rewrite Hbody, Hsan. reflexivity.
Qed.

Lemma Sanitize_refuse s data e :
  Body (request (ctx s)) = BodyData data ->
  SanitizeJSON data = Err e ->
  forall next,
    Sanitize next s =
      on_ctx Close
        (NoContent StatusBadRequest
           (mkSt (ReadAll (ctx s)).2 (world s) (logged s))).
Proof.
  intros Hbody Hsan next. unfold Sanitize, ReadAll.
  rewrite Hbody, Hsan. reflexivity.
Qed.

(** X9.  [Sanitize] closes the request body exactly when it could read it.
    With a [next] that leaves the request alone: after a successful read the
    request ends with its body read to the end and closed, also when the
    bytes read were refused, and with the same cookies, path parameters and
    query; after a failed read the request is left as it was, unclosed. *)
Theorem Sanitize_closes_what_it_read s (next : St W -> St W) :
  (forall s', request (ctx (next s')) = request (ctx s')) ->
  match Body (request (ctx s)) with
  | BodyData _ =>
      request (ctx (Sanitize next s)) =
        mkRequest (BodyData "") true (Cookies (request (ctx s)))
          (Params (request (ctx s))) (Query (request (ctx s)))
  | BodyFail _ => request (ctx (Sanitize next s)) = request (ctx s)
  end.
Proof.
  intros Hkeep. unfold Sanitize, ReadAll.
  destruct (Body (request (ctx s))) as [data|e]; [|reflexivity].
  destruct (SanitizeJSON data); [|reflexivity].
  cbn [ctx on_ctx Close with_request request]. rewrite Hkeep. reflexivity.
Qed.

(** X10.  The handler behind [Sanitize] gets the request with its cookies,
    path parameters and query as they came, but with nothing left to read
    from the body: reading it again yields no bytes. *)
Theorem Sanitize_leaves_nothing_to_read s data sanBody :
  Body (request (ctx s)) = BodyData data ->
  SanitizeJSON data = Ok sanBody ->
  exists s_in,
    (forall next, Sanitize next s = on_ctx Close (next s_in)) /\
    ReadAll (ctx s_in) = (Ok "", ctx s_in) /\
    Cookies (request (ctx s_in)) = Cookies (request (ctx s)) /\
    Params (request (ctx s_in)) = Params (request (ctx s)) /\
    Query (request (ctx s_in)) = Query (request (ctx s)).
Proof.
  intros Hbody Hsan. unfold Sanitize, ReadAll. rewrite Hbody, Hsan.
  eexists. split; [intros next; reflexivity|]. repeat split.
Qed.

(** X11.  [Sanitize] stacked on itself loses the body: the inner one reads
    the empty rest.  When [SanitizeJSON] refuses no bytes at all the answer
    is 400 and [next] is not run; when it accepts them, [next] finds under
    "body" what it made of no bytes, not the sanitized request. *)
Theorem Sanitize_twice_loses_body s data sanBody :
  Body (request (ctx s)) = BodyData data ->
  SanitizeJSON data = Ok sanBody ->
  match SanitizeJSON "" with
  | Err _ =>
      forall next next',
        writes (Sanitize (Sanitize next) s) =
          writes s ++ [(StatusBadRequest, None)] /\
        Sanitize (Sanitize next) s = Sanitize (Sanitize next') s
  | Ok none =>
      exists s_in,
        (forall next,
           Sanitize (Sanitize next) s = on_ctx Close (on_ctx Close (next s_in)))
        /\ Get "body" (ctx s_in) = AnyBytes none
  end.
Proof.
  intros Hbody Hsan.
  pose proof (Sanitize_pass s data sanBody Hbody Hsan) as Houter.
  set (s1 := on_ctx (Set_ "body" (AnyBytes sanBody))
               (mkSt (ReadAll (ctx s)).2 (world s) (logged s))) in Houter.
  assert (Hrest : Body (request (ctx s1)) = BodyData "")
    by (unfold s1, ReadAll; rewrite Hbody; reflexivity).
  assert (Hwrites : writes s1 = writes s)
    by (unfold s1, ReadAll; rewrite Hbody; reflexivity).
  destruct (SanitizeJSON "") as [none|e] eqn:Hnone.
  - eexists. split.
    + intros next. rewrite Houter.
      rewrite (Sanitize_pass s1 "" none Hrest Hnone). reflexivity.
    + unfold Get. cbn. rewrite lookup_insert_eq. reflexivity.
  - intros next next'. rewrite !Houter.
    rewrite !(Sanitize_refuse s1 "" e Hrest Hnone).
    split; [|reflexivity].
    unfold writes in *. cbn [ctx on_ctx NoContent Close with_request response].
    rewrite <- Hwrites. unfold ReadAll. rewrite Hrest. reflexivity.
Qed.

(** X12.  Behind [Sanitize] every handler still answers exactly once: with
    the 400 of the middleware, or with what the handler writes. *)
Theorem sanitized_handlers_answer_once s :
  Forall (fun h : St W -> St W =>
            exists wr, writes (Sanitize h s) = writes s ++ [wr])
    (all_handlers cfg).
Proof.
  unfold Sanitize, ReadAll.
  each_handler; branches; eexists; reflexivity.
Qed.
End Middleware.

(** A body of two braces goes through; the handler behind finds none. *)
Lemma Sanitize_leaves_nothing_to_read_witness :
  exists s_in,
    (forall next,
       Sanitize (P := fx_Pkg) next fx_json_body = on_ctx Close (next s_in)) /\
    ReadAll (ctx s_in) = (Ok "", ctx s_in) /\
    Cookies (request (ctx s_in)) = [] /\
    Params (request (ctx s_in)) = [] /\
    Query (request (ctx s_in)) = [("page", "1")].
Proof.
  apply (Sanitize_leaves_nothing_to_read (P := fx_Pkg) fx_json_body "{}" "{}");
    reflexivity.
Defined.

(** Stacked twice, the fixture's sanitizer refuses the empty rest. *)
Lemma Sanitize_twice_loses_body_witness :
  writes (Sanitize (P := fx_Pkg) (Sanitize (P := fx_Pkg) (GetMe (P := fx_Pkg)))
            fx_json_body) =
    [(StatusBadRequest, None)].
Proof.
  apply (Sanitize_twice_loses_body (P := fx_Pkg) fx_json_body "{}" "{}"
           eq_refl eq_refl (GetMe (P := fx_Pkg)) (GetMe (P := fx_Pkg))).
Defined.

(** * Properties of the server *)

Lemma wrap_int64_exact (z : Z) :
  wrap_int64 z = z <-> - 2 ^ 63 <= z < 2 ^ 63.
Proof.
  unfold wrap_int64. split.
  - intros Heq.
    pose proof (Z.mod_pos_bound (z + 2 ^ 63) (2 ^ 64) ltac:(lia)). lia.
  - intros Hz. rewrite Z.mod_small by lia. lia.
Qed.

(** X13.  [Run] maps the handlers only when SSL is configured, and then
    before anything else: a failure of [MapHandlers] is what [Run] returns,
    with no task started and no signal awaited.  Without SSL [MapHandlers]
    is never called, though the plain server and the pprof server are
    started. *)
Theorem Run_maps_handlers_only_under_SSL (cfg : ServerConfig)
    (e : Echo) (MapHandlers : option error)
    (shutdown : Z -> option error) :
  (if SSL cfg then
     match MapHandlers with
     | Some err =>
         Run cfg e MapHandlers shutdown = ([DoMapHandlers], Some err)
     | None =>
         head (Run cfg e MapHandlers shutdown).1 = Some DoMapHandlers
         /\ exists server,
              tasks_of (Run cfg e MapHandlers shutdown).1 =
                [StartTLS server (Port cfg) certFile keyFile;
                 ListenAndServePprof (PprofPort cfg)]
     end
   else
     ~ In DoMapHandlers (Run cfg e MapHandlers shutdown).1 /\
     exists server,
       tasks_of (Run cfg e MapHandlers shutdown).1 =
         [StartServer server; ListenAndServePprof (PprofPort cfg)] /\
       Addr server = Port cfg).
Proof.
  unfold Run. destruct (SSL cfg).
  - destruct MapHandlers as [err|]; [reflexivity|].
    split; [reflexivity|]. eexists. reflexivity.
  - split.
    + cbn. intros Hin.
      repeat (destruct Hin as [Hin|Hin]; [discriminate Hin|]). exact Hin.
    + eexists. split; reflexivity.
Qed.

(** X14.  Without SSL the server [Run] starts has a header limit of 1 MiB,
    and a configured read (write) timeout of [n >= 0] becomes [n] seconds
    exactly when [n <= 9223372036]: beyond that the product with
    [time.Second] leaves [int64] and wraps.  With SSL the same values are
    assigned to [s.echo.Server] only: the server [StartTLS] serves is the
    echo's [TLSServer], whose timeouts and header limit [Run] leaves as they
    were. *)
Theorem Run_timeouts_in_seconds (cfg : ServerConfig) (e : Echo)
    (MapHandlers : option error) (shutdown : Z -> option error) (t : Task)
    (server : http_Server) :
  In t (tasks_of (Run cfg e MapHandlers shutdown).1) ->
  served_by t = Some server ->
  0 <= ReadTimeout cfg -> 0 <= WriteTimeout cfg ->
  let configured (srv : http_Server) :=
    srv_MaxHeaderBytes srv = 1048576 /\
    (srv_ReadTimeout srv = ReadTimeout cfg * Second <->
       ReadTimeout cfg <= 9223372036) /\
    (srv_WriteTimeout srv = WriteTimeout cfg * Second <->
       WriteTimeout cfg <= 9223372036) in
  if SSL cfg then
    server = tls_server e (Port cfg) /\
    srv_ReadTimeout server = srv_ReadTimeout (echo_TLSServer e) /\
    srv_WriteTimeout server = srv_WriteTimeout (echo_TLSServer e) /\
    srv_MaxHeaderBytes server = srv_MaxHeaderBytes (echo_TLSServer e) /\
    configured (Server_after e (Run cfg e MapHandlers shutdown).1)
  else configured server.
Proof.
  intros Hin Hserved Hr Hw configured.
  assert (Hconf : configured
                    (mk_http_Server (Addr server)
                       (mul_Duration Second (ReadTimeout cfg))
                       (mul_Duration Second (WriteTimeout cfg))
                       maxHeaderBytes)).
  { unfold configured.
    cbn [srv_MaxHeaderBytes srv_ReadTimeout srv_WriteTimeout].
    unfold mul_Duration, Second.
    rewrite (Z.mul_comm (ReadTimeout cfg)), (Z.mul_comm (WriteTimeout cfg)).
    rewrite !wrap_int64_exact.
    split; [reflexivity|]. split; lia. }
  unfold Run in *. destruct (SSL cfg).
  - destruct MapHandlers as [err|]; cbn in Hin; [destruct Hin|].
    destruct Hin as [<-|[<-|[]]]; [|discriminate Hserved].
    injection Hserved as <-.
    split; [reflexivity|]. split; [reflexivity|]. split; [reflexivity|].
    split; [reflexivity|]. exact Hconf.
  - cbn in Hin. destruct Hin as [<-|[<-|[]]]; [|discriminate Hserved].
    injection Hserved as <-. exact Hconf.
Qed.

(** Five configured seconds are five seconds on the plain server; under
    SSL they reach [s.echo.Server] and the TLS server keeps its zeros. *)
Lemma Run_timeouts_in_seconds_witness :
  (srv_MaxHeaderBytes fx_plain_server = 1048576 /\
   (srv_ReadTimeout fx_plain_server = 5 * Second <-> 5 <= 9223372036) /\
   (srv_WriteTimeout fx_plain_server = 5 * Second <-> 5 <= 9223372036)) /\
  (tls_server fx_echo ":5000" = mk_http_Server ":5000" 0 0 0 /\
   srv_ReadTimeout (tls_server fx_echo ":5000") = 0 /\
   srv_WriteTimeout (tls_server fx_echo ":5000") = 0 /\
   srv_MaxHeaderBytes (tls_server fx_echo ":5000") = 0).
Proof.
  split.
  - apply (Run_timeouts_in_seconds fx_server_cfg fx_echo None (fun _ => None)
             (StartServer fx_plain_server) fx_plain_server).
    + left. reflexivity.
    + reflexivity.
    + discriminate.
    + discriminate.
  - destruct (Run_timeouts_in_seconds fx_tls_cfg fx_echo None (fun _ => None)
                (StartTLS (tls_server fx_echo ":5000") ":5000" certFile keyFile)
                (tls_server fx_echo ":5000"))
      as (Hserver & Hread & Hwrite & Hlimit & _).
    + left. reflexivity.
    + reflexivity.
    + discriminate.
    + discriminate.
    + repeat split; assumption.
Defined.

(** * Requests that cannot be read, and headers that are kept *)

Section Unreadable.
Context {W : Type} {UC : UseCase W} {SUC : UCSession W} {P : Pkg}.
Variable cfg : Config.
Implicit Type s : St (Recorded W).

(** X15.  A request that cannot be read reaches no use case: when
    [ReadRequest] fails in [Register], [Login] or [Update], or the
    pagination cannot be read in [GetUsers] or [FindByName], the handler
    answers with that error and the world, calls included, is as before. *)
Theorem unreadable_request_calls_nothing s :
  (forall err, ReadRequest_Register (ctx s) = Err err ->
     writes (Register cfg s) = writes s ++ [error_write err] /\
     world (Register cfg s) = world s) /\
  (forall err, ReadRequest_Login (ctx s) = Err err ->
     writes (Login cfg s) = writes s ++ [error_write err] /\
     world (Login cfg s) = world s) /\
  (forall uID err,
     Atoi (Param "user_id" (ctx s)) = Ok uID ->
     ReadRequest_User (ctx s) (set_ID zeroUser uID) = Err err ->
     writes (Update s) = writes s ++ [error_write err] /\
     world (Update s) = world s) /\
  (forall err, GetPaginationFromCtx (ctx s) = Err err ->
     (writes (GetUsers s) = writes s ++ [error_write err] /\
      world (GetUsers s) = world s) /\
     (QueryParam "name" (ctx s) <> "" ->
      writes (FindByName s) = writes s ++ [error_write err] /\
      world (FindByName s) = world s)).
Proof.
  unfold Register, Login, Update, GetUsers, FindByName.
  split; [|split; [|split]].
  - intros err Hread. rewrite Hread. split; reflexivity.
  - intros err Hread. rewrite Hread. split; reflexivity.
  - intros uID err Hid Hread. rewrite Hid, Hread. split; reflexivity.
  - intros err Hpq. split.
    + rewrite Hpq. split; reflexivity.
    + intros Hname. apply String.eqb_neq in Hname.
      rewrite Hname, Hpq. split; reflexivity.
Qed.
End Unreadable.

Section HeadersKept.
Context {W : Type} {P : Pkg}.
Implicit Type s : St W.

End HeadersKept.

(** A registration without a body. *)
Lemma unreadable_request_calls_nothing_witness :
  writes (Register (P := fx_Pkg) fx_cfg fx_find_no_name) =
    [error_write (P := fx_Pkg) (ErrOther "Unmarshal")] /\
  world (Register (P := fx_Pkg) fx_cfg fx_find_no_name) =
    mkRecorded (fx_directory 3) [].
Proof.
  apply (proj1 (unreadable_request_calls_nothing (P := fx_Pkg) fx_cfg
                  fx_find_no_name)).
  reflexivity.
Defined.


(** Behind [Sanitize], a handler that only answers: the body ends closed. *)
Lemma Sanitize_closes_what_it_read_witness :
  request (ctx (Sanitize (P := fx_Pkg) (NoContent StatusOK) fx_json_body)) =
    mkRequest (BodyData "") true [] [] [("page", "1")].
Proof.
  apply (Sanitize_closes_what_it_read (P := fx_Pkg) fx_json_body
           (NoContent StatusOK)).
  reflexivity.
Defined.
